(** * Waste Composition API (step1.py): a shallow embedding and its properties

    The service has two handlers, [waste_composition_endpoint] and
    [health_check], over one pipeline function, [get_waste_composition],
    which calls an inference provider twice and reshapes the answers.

    Python floats are IEEE binary64 numbers and are modelled by Rocq's
    primitive floats.  The provider client, the logger and the exceptions
    are modelled by a monad that threads the log and the trace of provider
    calls and that keeps both when an exception is raised. *)

From Stdlib Require Import PrimFloat FloatOps SpecFloat FloatAxioms.
From Stdlib Require Import List String Ascii ZArith Bool Arith Lia.
From Stdlib Require Import DecimalString.
Import ListNotations.
Local Open Scope string_scope.

(** ** Python values used by the module *)

Definition nl : string := String (ascii_of_nat 10) EmptyString.
Definition tab : string := String (ascii_of_nat 9) EmptyString.
Definition dquote : string := String (ascii_of_nat 34) EmptyString.

(** [str(n)] for the result of [len]. *)
Definition str_nat (n : nat) : string := NilEmpty.string_of_uint (Nat.to_uint n).

(** [str(z)] for an [int]. *)
Definition str_int (z : Z) : string := NilZero.string_of_int (Z.to_int z).

(** [float(z)]: the binary64 number nearest to the integer [z]. *)
Definition float_of_int (z : Z) : float :=
  SF2Prim (binary_normalize prec emax z 0 false).

(** A Python number: [sum] starts from the [int] 0 and yields a [float] as
    soon as one float has been added. *)
Inductive number : Type :=
| PyInt (z : Z)
| PyFloat (f : float).

Definition to_float (n : number) : float :=
  match n with
  | PyInt z => float_of_int z
  | PyFloat f => f
  end.

(** [start + v] for a float [v]. *)
Definition number_add (acc : number) (v : float) : number :=
  PyFloat (to_float acc + v)%float.

(** [sum(values)]: the items are added from left to right to the start
    value 0. *)
Definition py_sum (values : list float) : number :=
  fold_left number_add values (PyInt 0).

(** ** Exceptions *)

Inductive Exception : Type :=
| IndexError (msg : string)
| ValidationError (title : string) (missing : list string)
| ProviderError (msg : string)
| HTTPException (status_code : Z) (detail : string).

Inductive Result (A : Type) : Type :=
| Return (a : A)
| Raise (e : Exception).

Arguments Return {A} a.
Arguments Raise {A} e.

(** ** The pydantic models (lines 28-34) *)

Record WasteComposition : Type := {
  composition_name : string;
  composition_percentage : float
}.

Record WasteCompositionResponse : Type := {
  composition_dict : list WasteComposition;
  citation_dict : list string
}.

(** The constructor of the pydantic model: both fields are declared without
    a default, so each one is required; keyword arguments that name no field
    are ignored. *)
Definition missing_fields {A B : Type} (c : option A) (d : option B) : list string :=
  ((match c with Some _ => [] | None => ["composition_dict"] end)
   ++ (match d with Some _ => [] | None => ["citation_dict"] end))%list.

Definition WasteCompositionResponse_init
    (composition_dict_arg : option (list WasteComposition))
    (citation_dict_arg : option (list string))
    (extra : list (string * string)) : Result WasteCompositionResponse :=
  match composition_dict_arg, citation_dict_arg with
  | Some c, Some d => Return {| composition_dict := c; citation_dict := d |}
  | _, _ => Raise (ValidationError "WasteCompositionResponse"
                     (missing_fields composition_dict_arg citation_dict_arg))
  end.

(** ** The provider's answers, as the pipeline reads them *)

Record Annotation : Type := { url : string }.

Record ContentPart : Type := {
  text : string;
  annotations : list Annotation
}.

Record OutputItem : Type := { content : list ContentPart }.

Record Response : Type := { output : list OutputItem }.

Record ParsedResponse : Type := { output_parsed : WasteCompositionResponse }.

Record Tool : Type := {
  tool_type : string;
  search_context_size : string
}.

(** One outbound call to the provider, with its arguments. *)
Inductive Call : Type :=
| CreateCall (model : string) (tools : list Tool) (input : string)
| ParseCall (model : string) (input : string).

(** The provider client.  The provider is an external service: what a call
    answers may depend on the calls made before it, given as first
    argument. *)
Record Client : Type := {
  responses_create :
    list Call -> string -> list Tool -> string -> Result Response;
  responses_parse :
    list Call -> string -> string -> Result ParsedResponse
}.

(** ** Logging (lines 14-22) *)

Inductive Level : Type := DEBUG | INFO | WARNING | ERROR.

Definition levelno (l : Level) : nat :=
  match l with
  | DEBUG => 10
  | INFO => 20
  | WARNING => 30
  | ERROR => 40
  end.

Record LogRecord : Type := {
  levelname : Level;
  message : string
}.

(** [logging.basicConfig(level=logging.INFO, ...)]. *)
Definition configured_level : Level := INFO.

Definition isEnabledFor (l : Level) : bool :=
  Nat.leb (levelno configured_level) (levelno l).

(** ** The world and the monad of handlers *)

Record World : Type := {
  log : list LogRecord;
  calls : list Call
}.

Definition M (A : Type) : Type := World -> Result A * World.

Definition ret {A : Type} (a : A) : M A := fun w => (Return a, w).

Definition raise {A : Type} (e : Exception) : M A := fun w => (Raise e, w).

Definition bind {A B : Type} (m : M A) (k : A -> M B) : M B :=
  fun w =>
    match m w with
    | (Return a, w') => k a w'
    | (Raise e, w') => (Raise e, w')
    end.

(** [try: m  except Exception as e: handler e]. *)
Definition try_except {A : Type} (m : M A) (handler : Exception -> M A) : M A :=
  fun w =>
    match m w with
    | (Return a, w') => (Return a, w')
    | (Raise e, w') => handler e w'
    end.

Definition lift {A : Type} (r : Result A) : M A := fun w => (r, w).

Declare Scope py_scope.
Delimit Scope py_scope with py.
Notation "x <- m ;; k" := (bind m (fun x => k))
  (at level 100, m at next level, right associativity) : py_scope.
Notation "m ;; k" := (bind m (fun _ => k))
  (at level 100, right associativity) : py_scope.
Local Open Scope py_scope.

(** The world after a record is emitted and after a provider call is made. *)
Definition add_record (w : World) (l : Level) (msg : string) : World :=
  {| log := log w ++ [{| levelname := l; message := msg |}]; calls := calls w |}.

Definition add_call (w : World) (c : Call) : World :=
  {| log := log w; calls := calls w ++ [c] |}.

Definition logger_log (l : Level) (msg : string) : M unit :=
  fun w => if isEnabledFor l then (Return tt, add_record w l msg) else (Return tt, w).

Definition logger_debug : string -> M unit := logger_log DEBUG.
Definition logger_info : string -> M unit := logger_log INFO.
Definition logger_warning : string -> M unit := logger_log WARNING.
Definition logger_error : string -> M unit := logger_log ERROR.

(** [l[i]] for a list [l] and an index [i >= 0]. *)
Definition index {A : Type} (l : list A) (i : nat) : Result A :=
  match nth_error l i with
  | Some x => Return x
  | None => Raise (IndexError "list index out of range")
  end.

(** [len(l)]. *)
Definition len {A : Type} (l : list A) : nat := List.length l.

(** [range(n)]. *)
Definition range (n : nat) : list nat := seq 0 n.

(** [for x in xs: acc = body x acc]. *)
Fixpoint for_each {A S : Type} (xs : list A) (body : A -> S -> M S) (acc : S) : M S :=
  match xs with
  | [] => ret acc
  | x :: xs' => acc' <- body x acc ;; for_each xs' body acc'
  end.

(** ** Python's dict with string keys: insertion order is kept, and an
    assignment to a key already present replaces its value in place. *)

Definition dict : Type := list (string * float).

Fixpoint dict_set (d : dict) (k : string) (v : float) : dict :=
  match d with
  | [] => [(k, v)]
  | (k', v') :: d' =>
      if String.eqb k' k then (k', v) :: d' else (k', v') :: dict_set d' k v
  end.

Fixpoint dict_get (d : dict) (k : string) : option float :=
  match d with
  | [] => None
  | (k', v') :: d' => if String.eqb k' k then Some v' else dict_get d' k
  end.

Definition dict_keys (d : dict) : list string := map fst d.
Definition dict_values (d : dict) : list float := map snd d.

(** The [response_data] dict of the pipeline (lines 137-141). *)
Module ResponseData.
Record t : Type := {
  output : string;
  citations : list string;
  composition : dict
}.
End ResponseData.

(** What [get_waste_composition] can hand back: the success path returns a
    list of [response_data], the [except] path is written to return a
    [WasteCompositionResponse]. *)
Inductive PipelineValue : Type :=
| Results (l : list ResponseData.t)
| ErrorObject (r : WasteCompositionResponse).

(** [JSONResponse(status_code=..., content=...)], as the handler builds it;
    how the framework serializes the content is outside the module. *)
Record JSONResponse : Type := {
  status_code : Z;
  json_content : PipelineValue
}.

Definition HTTP_200_OK : Z := 200.
Definition HTTP_500_INTERNAL_SERVER_ERROR : Z := 500.

(** ** The two prompts (lines 87-93 and 101-119) *)

Definition retrieval_prompt (area : string) : string :=
  String.concat nl
    [ "What is the composition of Muncipal Solid Waste for area " ++ area
      ++ "? I need the composition in percentage. Make sure you always provide the correct sources link from where you have extracted the informations.";
      "            Make sure you avoid extracting information from government websites, rely on latest research papers, university research, and other reliable sources.";
      "            The composition always should include the following elements only: paper and paper board materials, glass, metals, plastics, yard trimmings, food, wood, rubber, leather, textiles and other materials.";
      "            The total composition should be 100% and the sum of all the elements should be equal to 100%. If the information is not available for the given area, please provide the information for the nearest area.";
      "            If the zipcode is not a valid zipcode then return empty list.";
      "            If the composition then return a message as " ++ dquote
      ++ "No information available for the given zipcode" ++ dquote ++ " ";
      "            " ].

Definition extraction_instruction : string :=
  String.concat nl
    [ "You are responsible for extracting the following elements and it composition." ++ nl;
      "             Elements to extract with its percentage:" ++ nl;
      "               1. paper and paper board materials" ++ nl ++ " ";
      "               2. glass " ++ nl;
      "               3. metals " ++ nl;
      "               4. plastics " ++ nl;
      "               5. yard trimmings " ++ nl;
      "               6. food " ++ nl;
      "               7. wood " ++ nl;
      "               8. rubber " ++ nl;
      "               9. leather " ++ nl;
      "               10. textiles " ++ nl;
      "               11. Construction & demolition debris" ++ tab ++ nl;
      "               12. electronic waste " ++ nl;
      "               13. others(hazardous, diapers, etc.) " ++ nl;
      EmptyString;
      "            The composition element can be sometimes named some thing else. make sure you extrcat it if falls under the above category." ++ nl;
      "            The total composition should be 100% and the sum of all the elements should be equal to 100%." ++ nl;
      "             The text you need to extract from is given below:" ++ nl ].

Definition web_search_preview : Tool :=
  {| tool_type := "web_search_preview"; search_context_size := "high" |}.

(** [abs(total_percentage - 100.0) > 0.03] (line 142); 0.03 denotes the
    nearest binary64 number, as it does in Python. *)
Definition deviates (total_percentage : number) : bool :=
  PrimFloat.ltb 0x1.eb851eb851eb8p-6%float
    (PrimFloat.abs (to_float total_percentage - 100.0)%float).

(** [response.output[1].content[0]]. *)
Definition message_part (response : Response) : Result ContentPart :=
  match index (output response) 1 with
  | Return item => index (content item) 0
  | Raise e => Raise e
  end.

Section Service.

(** The module-level provider client (line 39). *)
Variable client : Client.

(** [str] of a float and of a pydantic validation error: Python's and
    pydantic's own renderings, which the module only interpolates. *)
Variable float_str : float -> string.
Variable validation_str : string -> list string -> string.

Definition number_str (n : number) : string :=
  match n with
  | PyInt z => str_int z
  | PyFloat f => float_str f
  end.

(** [str(e)]. *)
Definition exception_str (e : Exception) : string :=
  match e with
  | IndexError msg => msg
  | ValidationError title missing => validation_str title missing
  | ProviderError msg => msg
  | HTTPException code detail => str_int code ++ ": " ++ detail
  end.

(** [client.responses.create(model=..., tools=..., input=...)]: the call is
    recorded, then the provider answers or raises. *)
Definition client_responses_create
    (model : string) (tools : list Tool) (input : string) : M Response :=
  fun w =>
    (responses_create client (calls w) model tools input,
     add_call w (CreateCall model tools input)).

(** [client.responses.parse(model=..., input=..., text_format=...)]. *)
Definition client_responses_parse (model : string) (input : string) : M ParsedResponse :=
  fun w =>
    (responses_parse client (calls w) model input,
     add_call w (ParseCall model input)).

(** The body of the loop of lines 125-126. *)
Definition citation_step (response : Response) (i : nat) (acc : list string) : M (list string) :=
  part <- lift (message_part response) ;;
  annotation <- lift (index (annotations part) i) ;;
  ret (acc ++ [url annotation])%list.

(** The body of the loop of lines 131-132. *)
Definition composition_step (entries : list WasteComposition) (i : nat) (acc : dict) : M dict :=
  key <- lift (index entries i) ;;
  value <- lift (index entries i) ;;
  ret (dict_set acc (composition_name key) (composition_percentage value)).

(** Lines 123-127. *)
Definition collect_citations (response : Response) (area : string) : M (list string) :=
  let dictionary_link : list string := [] in
  part <- lift (message_part response) ;;
  if Nat.ltb 0 (len (annotations part)) then
    part <- lift (message_part response) ;;
    dictionary_link <-
      for_each (range (len (annotations part))) (citation_step response)
        dictionary_link ;;
    logger_info ("Extracted " ++ str_nat (len dictionary_link)
                 ++ " citations for area " ++ area) ;;
    ret dictionary_link
  else ret dictionary_link.

(** Lines 129-133. *)
Definition collect_composition
    (response_formatted : ParsedResponse) (area : string) : M dict :=
  let dictionary_composition : dict := [] in
  let entries := composition_dict (output_parsed response_formatted) in
  if Nat.ltb 0 (len entries) then
    dictionary_composition <-
      for_each (range (len entries)) (composition_step entries)
        dictionary_composition ;;
    logger_info ("Extracted composition data for "
                 ++ str_nat (len dictionary_composition)
                 ++ " materials for area " ++ area) ;;
    ret dictionary_composition
  else ret dictionary_composition.

(** Lines 135-147. *)
Definition validate_total
    (structured_result : string) (dictionary_link : list string)
    (dictionary_composition : dict) (area : string) : M PipelineValue :=
  let total_percentage := py_sum (dict_values dictionary_composition) in
  let response_data :=
    {| ResponseData.output := structured_result;
       ResponseData.citations := dictionary_link;
       ResponseData.composition := dictionary_composition |} in
  if deviates total_percentage then
    logger_warning ("Total percentage " ++ number_str total_percentage
                    ++ "% does not sum to 100% for area " ++ area) ;;
    ret (Results [response_data])
  else
    logger_info ("Successfully processed composition data for area " ++ area) ;;
    ret (Results [response_data]).

(** The [try] block of [get_waste_composition] (lines 80-147). *)
Definition pipeline_body (area : string) : M PipelineValue :=
  response <- client_responses_create "gpt-4o" [web_search_preview]
                (retrieval_prompt area) ;;
  part <- lift (message_part response) ;;
  let structured_result := text part in
  logger_debug ("Raw OpenAI response: " ++ structured_result) ;;
  response_formatted <- client_responses_parse "gpt-4o-mini"
                          (extraction_instruction ++ structured_result) ;;
  dictionary_link <- collect_citations response area ;;
  dictionary_composition <- collect_composition response_formatted area ;;
  validate_total structured_result dictionary_link dictionary_composition area.

(** Lines 76-154. *)
Definition get_waste_composition (area : string) : M PipelineValue :=
  logger_info ("Processing waste composition request for area: " ++ area) ;;
  try_except (pipeline_body area)
    (fun e =>
       logger_error ("Error processing area " ++ area ++ ": " ++ exception_str e) ;;
       error_object <- lift (WasteCompositionResponse_init None (Some [])
                               [("message", "Error processing request: " ++ exception_str e)]) ;;
       ret (ErrorObject error_object)).

(** Lines 156-173. *)
Definition waste_composition_endpoint (area : string) : M JSONResponse :=
  logger_info ("Received request for area: " ++ area) ;;
  try_except
    (result <- get_waste_composition area ;;
     logger_info ("Successfully processed request for area " ++ area) ;;
     ret {| status_code := HTTP_200_OK; json_content := result |})
    (fun e =>
       logger_error ("Internal server error for area " ++ area ++ ": "
                     ++ exception_str e) ;;
       raise (HTTPException HTTP_500_INTERNAL_SERVER_ERROR
                ("Internal server error: " ++ exception_str e))).

(** Lines 175-179. *)
Definition health_check : M (list (string * string)) :=
  logger_info "Health check requested" ;;
  ret [("status", "healthy"); ("version", "1.0.0")].

End Service.

(** ** The HTTP framework around the handlers *)

Inductive Body : Type :=
| JsonContent (v : PipelineValue)
| JsonDetail (detail : string)
| JsonObject (fields : list (string * string)).

Record HTTPResponse : Type := {
  status : Z;
  body : Body
}.

(** What the client of the API receives for a handler's outcome: the
    returned response, or, for a raised [HTTPException], a response with
    its status code and a body holding its [detail].  Any other exception
    leaving the handler is unhandled. *)
Definition respond (outcome : Result JSONResponse) : option HTTPResponse :=
  match outcome with
  | Return r => Some {| status := status_code r; body := JsonContent (json_content r) |}
  | Raise (HTTPException code detail) => Some {| status := code; body := JsonDetail detail |}
  | Raise _ => None
  end.

(** [GET /waste-composition/{area}]. *)
Definition GET_waste_composition
    (client : Client) (float_str : float -> string)
    (validation_str : string -> list string -> string)
    (area : string) (w : World) : option HTTPResponse :=
  respond (fst (waste_composition_endpoint client float_str validation_str area w)).

(** ** Sample providers *)

Definition empty_world : World := {| log := []; calls := [] |}.

Definition sample_float_str (f : float) : string := "<float>".

Definition sample_validation_str (title : string) (missing : list string) : string :=
  str_nat (len missing) ++ " validation error for " ++ title ++ nl
  ++ String.concat nl (map (fun field => field ++ nl ++ "  Field required") missing).

Definition sample_response (cited : list string) : Response :=
  {| output :=
       [ {| content := [] |};
         {| content := [ {| text := "Estimated composition of municipal solid waste.";
                            annotations := map (fun u => {| url := u |}) cited |} ] |} ] |}.

Definition entry (name : string) (percentage : float) : WasteComposition :=
  {| composition_name := name; composition_percentage := percentage |}.

Definition sample_parsed (entries : list WasteComposition) : ParsedResponse :=
  {| output_parsed := {| composition_dict := entries; citation_dict := [] |} |}.

(** A provider that answers both calls. *)
Definition answering_client (cited : list string) (entries : list WasteComposition) : Client :=
  {| responses_create := fun _ _ _ _ => Return (sample_response cited);
     responses_parse := fun _ _ _ => Return (sample_parsed entries) |}.

(** A provider whose retrieval call fails. *)
Definition unreachable_client : Client :=
  {| responses_create := fun _ _ _ _ => Raise (ProviderError "Connection error.");
     responses_parse := fun _ _ _ => Raise (ProviderError "Connection error.") |}.

(** A provider whose extraction call fails. *)
Definition unparsable_client : Client :=
  {| responses_create := fun _ _ _ _ => Return (sample_response []);
     responses_parse := fun _ _ _ => Raise (ProviderError "Could not parse response content") |}.

Definition sample_cited : list string :=
  ["https://example.org/a"; "https://example.org/b"; "https://example.org/a"].

Definition duplicated_entries : list WasteComposition :=
  [entry "glass" 40; entry "food" 35; entry "glass" 25]%float.

Definition balanced_entries : list WasteComposition :=
  [entry "paper and paper board materials" 60; entry "food" 40]%float.

Definition negative_entries : list WasteComposition :=
  [entry "glass" (-5); entry "food" 105]%float.

(** ** Reference functions for the two loops *)

(** One iteration of the composition loop, on the entry itself. *)
Definition set_entry (d : dict) (e : WasteComposition) : dict :=
  dict_set d (composition_name e) (composition_percentage e).

(** The mapping the composition loop builds from the extracted entries. *)
Definition composition_mapping (entries : list WasteComposition) : dict :=
  fold_left set_entry entries [].

(** The bindings of a mapping for one key. *)
Definition bindings_of (d : dict) (k : string) : list (string * float) :=
  filter (fun kv => String.eqb (fst kv) k) d.

(** [v >= 0] on floats. *)
Definition non_negative (v : float) : Prop := PrimFloat.leb 0 v = true.

(** [abs(total - 100.0) <= 0.03], the complement of [deviates] on numbers
    that are not NaN. *)
Definition within_tolerance (total : number) : Prop :=
  PrimFloat.leb (PrimFloat.abs (to_float total - 100.0)%float)
    0x1.eb851eb851eb8p-6%float = true.

(** An extraction output in which no name repeats, every percentage is
    non-negative and the percentages add up to 100.0 within 0.03. *)
Definition well_formed (entries : list WasteComposition) : Prop :=
  NoDup (map composition_name entries)
  /\ Forall (fun e => non_negative (composition_percentage e)) entries
  /\ within_tolerance (py_sum (map composition_percentage entries)).

(** The two provider calls of one pipeline run. *)
Definition retrieval_call (area : string) : Call :=
  CreateCall "gpt-4o" [web_search_preview] (retrieval_prompt area).

Definition extraction_call (structured_result : string) : Call :=
  ParseCall "gpt-4o-mini" (extraction_instruction ++ structured_result).

(** What the provider answers to the retrieval call made in world [w], and
    to the extraction call that follows it. *)
Definition retrieval_answer (client : Client) (area : string) (w : World) : Result Response :=
  responses_create client (calls w) "gpt-4o" [web_search_preview] (retrieval_prompt area).

Definition extraction_answer (client : Client) (area : string) (w : World)
    (structured_result : string) : Result ParsedResponse :=
  responses_parse client (calls w ++ [retrieval_call area]) "gpt-4o-mini"
    (extraction_instruction ++ structured_result).

(** The [response_data] built from the two answers. *)
Definition response_data_of (part : ContentPart) (parsed : ParsedResponse) : ResponseData.t :=
  {| ResponseData.output := text part;
     ResponseData.citations := map url (annotations part);
     ResponseData.composition :=
       composition_mapping (composition_dict (output_parsed parsed)) |}.

(** The records the normalizer emits. *)
Definition citations_record (w : World) (links : list string) (area : string) : World :=
  if Nat.ltb 0 (len links)
  then add_record w INFO
         ("Extracted " ++ str_nat (len links) ++ " citations for area " ++ area)
  else w.

Definition composition_record (w : World) (entries : list WasteComposition)
    (area : string) : World :=
  if Nat.ltb 0 (len entries)
  then add_record w INFO
         ("Extracted composition data for "
          ++ str_nat (len (composition_mapping entries))
          ++ " materials for area " ++ area)
  else w.

Definition total_record (float_str : float -> string) (w : World) (d : dict)
    (area : string) : World :=
  if deviates (py_sum (dict_values d))
  then add_record w WARNING
         ("Total percentage " ++ number_str float_str (py_sum (dict_values d))
          ++ "% does not sum to 100% for area " ++ area)
  else add_record w INFO ("Successfully processed composition data for area " ++ area).

(** The world in which the [try] block of the pipeline starts. *)
Definition started (w : World) (area : string) : World :=
  add_record w INFO ("Processing waste composition request for area: " ++ area).

(** The exception that the [except] clause of the pipeline raises while it
    builds its error object. *)
Definition missing_composition_dict : Exception :=
  ValidationError "WasteCompositionResponse" ["composition_dict"].

(** The world in which a pipeline run started in [w0] ends when both
    provider calls answer. *)
Definition success_world (float_str : float -> string) (w0 : World)
    (part : ContentPart) (parsed : ParsedResponse) (area : string) : World :=
  let entries := composition_dict (output_parsed parsed) in
  let w1 := add_call w0 (retrieval_call area) in
  let w2 := add_call w1 (extraction_call (text part)) in
  let w3 := citations_record w2 (map url (annotations part)) area in
  let w4 := composition_record w3 entries area in
  total_record float_str w4 (composition_mapping entries) area.

(** The provider calls of one pipeline run: the retrieval call, then the
    extraction call when the retrieval answer could be read. *)
Definition calls_made (client : Client) (area : string) (w : World) : list Call :=
  match retrieval_answer client area w with
  | Raise _ => [retrieval_call area]
  | Return response =>
      match message_part response with
      | Raise _ => [retrieval_call area]
      | Return part => [retrieval_call area; extraction_call (text part)]
      end
  end.


(** The response to every request that fails. *)
Definition failure_response (validation_str : string -> list string -> string)
    : HTTPResponse :=
  {| status := 500;
     body := JsonDetail
               ("Internal server error: "
                ++ validation_str "WasteCompositionResponse" ["composition_dict"]) |}.

(** A provider whose retrieval answer has the given output items. *)
Definition shaped_client (items : list OutputItem) : Client :=
  {| responses_create := fun _ _ _ _ => Return {| output := items |};
     responses_parse := fun _ _ _ => Return (sample_parsed balanced_entries) |}.


(** The records of a log at level ERROR. *)
Definition errors (records : list LogRecord) : list LogRecord :=
  filter (fun r => match levelname r with ERROR => true | _ => false end) records.

(** ** Module start-up (lines 36-57) *)

Module Startup.

(** The exceptions of the start-up code, told apart as its [except]
    clauses do: a [KeyError], or any other exception, with its [str]. *)
Inductive StartupException : Type :=
| KeyError (arg : string)
| OtherException (msg : string).

Inductive Outcome (A : Type) : Type :=
| Started (a : A)
| Failed (e : StartupException).

Arguments Started {A} a.
Arguments Failed {A} e.

(** The start-up code only logs: its state is the log. *)
Definition Script (A : Type) : Type := list LogRecord -> Outcome A * list LogRecord.

Definition ret {A : Type} (a : A) : Script A := fun l => (Started a, l).

Definition raise {A : Type} (e : StartupException) : Script A := fun l => (Failed e, l).

Definition bind {A B : Type} (m : Script A) (k : A -> Script B) : Script B :=
  fun l =>
    match m l with
    | (Started a, l') => k a l'
    | (Failed e, l') => (Failed e, l')
    end.

Definition try_except {A : Type} (m : Script A)
    (handler : StartupException -> Script A) : Script A :=
  fun l =>
    match m l with
    | (Started a, l') => (Started a, l')
    | (Failed e, l') => handler e l'
    end.

Definition lift {A : Type} (o : Outcome A) : Script A := fun l => (o, l).

Definition logger_log (lvl : Level) (msg : string) : Script unit :=
  fun l =>
    if isEnabledFor lvl
    then (Started tt, (l ++ [{| levelname := lvl; message := msg |}])%list)
    else (Started tt, l).

Definition logger_info : string -> Script unit := logger_log INFO.
Definition logger_error : string -> Script unit := logger_log ERROR.

Declare Scope startup_scope.
Delimit Scope startup_scope with startup.
Notation "x <- m ;; k" := (bind m (fun x => k))
  (at level 100, m at next level, right associativity) : startup_scope.
Notation "m ;; k" := (bind m (fun _ => k))
  (at level 100, right associativity) : startup_scope.
Local Open Scope startup_scope.

Section Init.

(** [os.environ], after [load_dotenv()]. *)
Variable environ : string -> option string.

(** [wrap_openai(OpenAI(api_key=key))] and [LangSmithClient()]: the
    constructors of the two libraries, which return a client or raise. *)
Variable OpenAI : string -> Outcome Client.
Variable LangSmith : Type.
Variable LangSmithClient : Outcome LangSmith.

(** [os.environ[key]]. *)
Definition environ_getitem (key : string) : Script string :=
  fun l =>
    match environ key with
    | Some value => (Started value, l)
    | None => (Failed (KeyError key), l)
    end.

(** [not s] for a string [s]. *)
Definition is_empty (s : string) : bool :=
  match s with
  | EmptyString => true
  | String _ _ => false
  end.

(** Lines 37-43. *)
Definition init_openai : Script Client :=
  try_except
    (openai_key <- environ_getitem "OPENAI_API_KEY" ;;
     client <- lift (OpenAI openai_key) ;;
     logger_info "OpenAI client initialized successfully" ;;
     ret client)
    (fun e =>
       match e with
       | KeyError _ =>
           logger_error "OPENAI_API_KEY not found in environment variables" ;;
           raise (OtherException
                    "OPENAI_API_KEY not found in environment variables. Ensure it is set in .env file.")
       | OtherException _ => raise e
       end).

(** Lines 46-57. *)
Definition init_langsmith : Script LangSmith :=
  try_except
    (langchain_api_key <- environ_getitem "LANGCHAIN_API_KEY" ;;
     (if is_empty langchain_api_key
      then raise (KeyError "LANGCHAIN_API_KEY is empty")
      else ret tt) ;;
     langsmith_client <- lift LangSmithClient ;;
     logger_info "LangSmith client initialized successfully" ;;
     ret langsmith_client)
    (fun e =>
       match e with
       | KeyError _ =>
           logger_error "LANGCHAIN_API_KEY not found or empty in environment variables" ;;
           raise (OtherException
                    "LANGCHAIN_API_KEY not found or empty. Ensure it is set in .env file.")
       | OtherException msg =>
           logger_error ("Failed to initialize LangSmith client: " ++ msg) ;;
           raise (OtherException ("Failed to initialize LangSmith client: " ++ msg))
       end).

(** The two blocks in the order of the module. *)
Definition startup : Script (Client * LangSmith) :=
  client <- init_openai ;;
  langsmith_client <- init_langsmith ;;
  ret (client, langsmith_client).

End Init.

Arguments init_langsmith environ {LangSmith} LangSmithClient.
Arguments startup environ OpenAI {LangSmith} LangSmithClient.

(** The exceptions and the records of success of the two blocks. *)
Definition openai_key_not_found : StartupException :=
  OtherException
    "OPENAI_API_KEY not found in environment variables. Ensure it is set in .env file.".

Definition langchain_key_not_found : StartupException :=
  OtherException "LANGCHAIN_API_KEY not found or empty. Ensure it is set in .env file.".

Definition openai_ready : LogRecord :=
  {| levelname := INFO; message := "OpenAI client initialized successfully" |}.

Definition langsmith_ready : LogRecord :=
  {| levelname := INFO; message := "LangSmith client initialized successfully" |}.

(** Sample environments. *)
Definition environ_of (bindings : list (string * string)) (key : string) : option string :=
  match find (fun kv => String.eqb (fst kv) key) bindings with
  | Some kv => Some (snd kv)
  | None => None
  end.

Definition full_environ : string -> option string :=
  environ_of [("OPENAI_API_KEY", "sk-test"); ("LANGCHAIN_API_KEY", "ls-test")].

Definition sample_OpenAI (key : string) : Outcome Client :=
  Started (answering_client [] []).

End Startup.

(** * Properties *)

(** ** Indexing loops *)

Lemma nth_error_skipn_cons {A : Type} (l : list A) :
  forall k a, nth_error l k = Some a -> skipn k l = a :: skipn (S k) l.
Proof.
  induction l as [|x l IH]; intros [|k] a H; simpl in *; try discriminate.
  - now inversion H.
  - now apply IH.
Qed.

Lemma nth_error_in_range {A : Type} (l : list A) (k : nat) :
  k < List.length l -> exists a, nth_error l k = Some a.
Proof.
  intros H. destruct (nth_error l k) as [a|] eqn:E.
  - now exists a.
  - apply nth_error_None in E. lia.
Qed.

Lemma citation_step_at (response : Response) (part : ContentPart) (w : World)
    (k : nat) (a : Annotation) (acc : list string) :
  message_part response = Return part ->
  nth_error (annotations part) k = Some a ->
  citation_step response k acc w = (Return (acc ++ [url a])%list, w).
Proof.
  intros Hpart Ha. unfold citation_step, bind, lift, ret, index.
  now rewrite Hpart, Ha.
Qed.

Lemma composition_step_at (entries : list WasteComposition) (w : World)
    (k : nat) (e : WasteComposition) (acc : dict) :
  nth_error entries k = Some e ->
  composition_step entries k acc w = (Return (set_entry acc e), w).
Proof.
  intros He. unfold composition_step, bind, lift, ret, index.
  now rewrite He.
Qed.

(** The citation loop started at index [k] for [n] rounds appends the URLs
    of the annotations [k], ..., [k + n - 1], in that order. *)
Lemma citation_loop (response : Response) (part : ContentPart) (w : World) :
  message_part response = Return part ->
  forall n k acc,
    k + n <= len (annotations part) ->
    for_each (seq k n) (citation_step response) acc w
    = (Return (acc ++ map url (firstn n (skipn k (annotations part))))%list, w).
Proof.
  intros Hpart. induction n as [|n IH]; intros k acc Hk; simpl.
  - unfold ret. now rewrite app_nil_r.
  - destruct (nth_error_in_range (annotations part) k) as [a Ha].
    { unfold len in Hk. lia. }
    unfold bind. rewrite (citation_step_at _ _ _ _ _ _ Hpart Ha).
    rewrite IH by lia.
    rewrite (nth_error_skipn_cons _ _ _ Ha). simpl.
    now rewrite <- app_assoc.
Qed.

(** The composition loop, likewise, folds [set_entry] over the entries
    [k], ..., [k + n - 1]. *)
Lemma composition_loop (entries : list WasteComposition) (w : World) :
  forall n k acc,
    k + n <= len entries ->
    for_each (seq k n) (composition_step entries) acc w
    = (Return (fold_left set_entry (firstn n (skipn k entries)) acc), w).
Proof.
  induction n as [|n IH]; intros k acc Hk; simpl.
  - reflexivity.
  - destruct (nth_error_in_range entries k) as [e He].
    { unfold len in Hk. lia. }
    unfold bind. rewrite (composition_step_at _ _ _ _ _ He).
    rewrite IH by lia.
    now rewrite (nth_error_skipn_cons _ _ _ He).
Qed.

Lemma firstn_len {A : Type} (l : list A) : firstn (len l) (skipn 0 l) = l.
Proof. unfold len. simpl. apply firstn_all. Qed.

(** ** The normalizer, step by step *)

Lemma collect_citations_eq (response : Response) (part : ContentPart)
    (area : string) (w : World) :
  message_part response = Return part ->
  collect_citations response area w
  = (Return (map url (annotations part)),
     citations_record w (map url (annotations part)) area).
Proof.
  intros Hpart. unfold collect_citations, citations_record.
  unfold bind at 1. unfold lift at 1. rewrite Hpart.
  replace (len (map url (annotations part))) with (len (annotations part))
    by (unfold len; now rewrite length_map).
  destruct (Nat.ltb 0 (len (annotations part))) eqn:Hlen.
  - unfold bind at 1. unfold lift at 1. cbv beta iota.
    unfold bind at 1. unfold range.
    rewrite (citation_loop response part w Hpart) by lia.
    rewrite firstn_len. simpl.
    unfold bind, logger_info, logger_log, ret. simpl.
    replace (len (map url (annotations part))) with (len (annotations part))
      by (unfold len; now rewrite length_map).
    reflexivity.
  - unfold ret. apply Nat.ltb_ge in Hlen.
    destruct (annotations part); [reflexivity | simpl in Hlen; lia].
Qed.

Lemma collect_composition_eq (parsed : ParsedResponse) (area : string) (w : World) :
  collect_composition parsed area w
  = (Return (composition_mapping (composition_dict (output_parsed parsed))),
     composition_record w (composition_dict (output_parsed parsed)) area).
Proof.
  unfold collect_composition, composition_record.
  set (entries := composition_dict (output_parsed parsed)).
  destruct (Nat.ltb 0 (len entries)) eqn:Hlen.
  - unfold bind at 1. unfold range.
    rewrite (composition_loop entries w) by lia.
    rewrite firstn_len.
    unfold bind, logger_info, logger_log, ret. simpl. reflexivity.
  - unfold ret. apply Nat.ltb_ge in Hlen.
    destruct entries; [reflexivity | simpl in Hlen; lia].
Qed.

Lemma validate_total_eq (float_str : float -> string) (structured_result : string)
    (links : list string) (d : dict) (area : string) (w : World) :
  validate_total float_str structured_result links d area w
  = (Return (Results [ {| ResponseData.output := structured_result;
                          ResponseData.citations := links;
                          ResponseData.composition := d |} ]),
     total_record float_str w d area).
Proof.
  unfold validate_total, total_record.
  destruct (deviates (py_sum (dict_values d))); reflexivity.
Qed.

(** ** The pipeline and the endpoint, case by case *)

Section Handlers.

Variable client : Client.
Variable float_str : float -> string.
Variable validation_str : string -> list string -> string.

(** The [try] block of the pipeline: it fails with the provider's or the
    indexing error, or it returns the single [response_data]. *)
Lemma pipeline_body_eq (area : string) (w0 : World) :
  pipeline_body client float_str area w0
  = match retrieval_answer client area w0 with
    | Raise e => (Raise e, add_call w0 (retrieval_call area))
    | Return response =>
        match message_part response with
        | Raise e => (Raise e, add_call w0 (retrieval_call area))
        | Return part =>
            match extraction_answer client area w0 (text part) with
            | Raise e =>
                (Raise e, add_call (add_call w0 (retrieval_call area))
                            (extraction_call (text part)))
            | Return parsed =>
                (Return (Results [response_data_of part parsed]),
                 success_world float_str w0 part parsed area)
            end
        end
    end.
Proof.
  unfold pipeline_body, retrieval_answer, extraction_answer.
  unfold bind at 1. unfold client_responses_create at 1.
  fold (retrieval_call area).
  destruct (responses_create client (calls w0) "gpt-4o" [web_search_preview]
              (retrieval_prompt area)) as [response|e]; [|reflexivity].
  unfold bind at 1. unfold lift at 1.
  destruct (message_part response) as [part|e] eqn:Hpart; [|reflexivity].
  unfold bind at 1. unfold logger_debug, logger_log.
  change (isEnabledFor DEBUG) with false. cbv iota.
  unfold bind at 1. unfold client_responses_parse at 1.
  fold (extraction_call (text part)). simpl calls.
  destruct (responses_parse client (calls w0 ++ [retrieval_call area]) "gpt-4o-mini"
              (extraction_instruction ++ text part)) as [parsed|e]; [|reflexivity].
  unfold bind at 1. rewrite (collect_citations_eq response part area _ Hpart).
  unfold bind at 1. rewrite collect_composition_eq.
  rewrite validate_total_eq. reflexivity.
Qed.

(** The pipeline: what its [try] block returns, or the exception of its
    [except] clause. *)
Lemma get_waste_composition_eq (area : string) (w : World) :
  get_waste_composition client float_str validation_str area w
  = match pipeline_body client float_str area (started w area) with
    | (Return v, w1) => (Return v, w1)
    | (Raise e, w1) =>
        (Raise missing_composition_dict,
         add_record w1 ERROR
           ("Error processing area " ++ area ++ ": " ++ exception_str validation_str e))
    end.
Proof.
  unfold get_waste_composition. unfold bind at 1.
  unfold logger_info at 1, logger_log.
  change (isEnabledFor INFO) with true. cbv iota.
  fold (started w area). unfold try_except.
  destruct (pipeline_body client float_str area (started w area)) as [[v|e] w1];
    reflexivity.
Qed.

Lemma waste_composition_endpoint_eq (area : string) (w : World) :
  waste_composition_endpoint client float_str validation_str area w
  = match get_waste_composition client float_str validation_str area
            (add_record w INFO ("Received request for area: " ++ area)) with
    | (Return v, w1) =>
        (Return {| status_code := HTTP_200_OK; json_content := v |},
         add_record w1 INFO ("Successfully processed request for area " ++ area))
    | (Raise e, w1) =>
        (Raise (HTTPException HTTP_500_INTERNAL_SERVER_ERROR
                  ("Internal server error: " ++ exception_str validation_str e)),
         add_record w1 ERROR
           ("Internal server error for area " ++ area ++ ": "
            ++ exception_str validation_str e))
    end.
Proof.
  unfold waste_composition_endpoint. unfold bind at 1.
  unfold logger_info at 1, logger_log.
  change (isEnabledFor INFO) with true. cbv iota.
  unfold try_except. unfold bind at 1.
  destruct (get_waste_composition client float_str validation_str area
              (add_record w INFO ("Received request for area: " ++ area)))
    as [[v|e] w1]; reflexivity.
Qed.

(** The pipeline never returns normally with anything but a one-element
    list of [response_data]. *)
Lemma get_waste_composition_returns (area : string) (w w' : World) (v : PipelineValue) :
  get_waste_composition client float_str validation_str area w = (Return v, w') ->
  exists response part parsed,
    retrieval_answer client area w = Return response
    /\ message_part response = Return part
    /\ extraction_answer client area w (text part) = Return parsed
    /\ v = Results [response_data_of part parsed]
    /\ w' = success_world float_str (started w area) part parsed area.
Proof.
  rewrite get_waste_composition_eq, pipeline_body_eq.
  unfold retrieval_answer, extraction_answer. simpl calls.
  destruct (responses_create _ _ _ _ _) as [response|e]; [|discriminate].
  destruct (message_part response) as [part|e] eqn:Hpart; [|discriminate].
  destruct (responses_parse _ _ _ _) as [parsed|e] eqn:Hparse; [|discriminate].
  intros H. inversion H; subst.
  exists response, part, parsed. repeat split; assumption.
Qed.

Lemma get_waste_composition_succeeds (area : string) (w : World)
    (response : Response) (part : ContentPart) (parsed : ParsedResponse) :
  retrieval_answer client area w = Return response ->
  message_part response = Return part ->
  extraction_answer client area w (text part) = Return parsed ->
  get_waste_composition client float_str validation_str area w
  = (Return (Results [response_data_of part parsed]),
     success_world float_str (started w area) part parsed area).
Proof.
  intros Hr Hp He.
  rewrite get_waste_composition_eq, pipeline_body_eq.
  unfold retrieval_answer, extraction_answer in *. simpl calls.
  now rewrite Hr, Hp, He.
Qed.

(** Every way out of a failing [try] block ends in the exception raised by
    the [except] clause. *)
Lemma get_waste_composition_raises (area : string) (w w1 : World) (e : Exception) :
  pipeline_body client float_str area (started w area) = (Raise e, w1) ->
  get_waste_composition client float_str validation_str area w
  = (Raise missing_composition_dict,
     add_record w1 ERROR
       ("Error processing area " ++ area ++ ": " ++ exception_str validation_str e)).
Proof.
  intros H. now rewrite get_waste_composition_eq, H.
Qed.

(** Logging leaves the trace of provider calls as it is. *)
Lemma calls_success_world (w0 : World) (part : ContentPart) (parsed : ParsedResponse)
    (area : string) :
  calls (success_world float_str w0 part parsed area)
  = (calls w0 ++ [retrieval_call area; extraction_call (text part)])%list.
Proof.
  unfold success_world, total_record, composition_record, citations_record.
  destruct (deviates _); destruct (Nat.ltb 0 (len (composition_dict _)));
    destruct (Nat.ltb 0 (len (map url _))); simpl; now rewrite <- app_assoc.
Qed.

(** Each run makes the retrieval call once and the extraction call at most
    once, whether it returns or raises. *)
Lemma get_waste_composition_calls (area : string) (w : World) :
  calls (snd (get_waste_composition client float_str validation_str area w))
  = (calls w ++ calls_made client area w)%list.
Proof.
  rewrite get_waste_composition_eq, pipeline_body_eq. unfold calls_made.
  change (retrieval_answer client area (started w area))
    with (retrieval_answer client area w).
  destruct (retrieval_answer client area w) as [response|e1]; [|reflexivity].
  destruct (message_part response) as [part|e2]; [|reflexivity].
  change (extraction_answer client area (started w area) (text part))
    with (extraction_answer client area w (text part)).
  destruct (extraction_answer client area w (text part)) as [parsed|e3].
  - simpl snd. now rewrite calls_success_world.
  - simpl. now rewrite <- app_assoc.
Qed.

End Handlers.

(** ** Assignment to a dict *)

Lemma bindings_of_absent (d : dict) (k : string) :
  ~ In k (dict_keys d) -> bindings_of d k = [].
Proof.
  induction d as [|[k' v'] d IH]; simpl; intros H; [reflexivity|].
  destruct (String.eqb k' k) eqn:E.
  - apply String.eqb_eq in E. tauto.
  - apply IH. tauto.
Qed.

(** After [d[k] = v] the dict binds [k] once, to [v]. *)
Lemma bindings_of_dict_set (d : dict) (k : string) (v : float) :
  NoDup (dict_keys d) -> bindings_of (dict_set d k v) k = [(k, v)].
Proof.
  induction d as [|[k' v'] d IH]; simpl; intros Hnd.
  - now rewrite String.eqb_refl.
  - inversion Hnd as [|? ? Hnotin Hnd']; subst.
    destruct (String.eqb k' k) eqn:E; simpl; rewrite E.
    + apply String.eqb_eq in E. subst k'.
      fold (bindings_of d k). now rewrite bindings_of_absent.
    + now apply IH.
Qed.

(** The bindings of the other keys are left as they were. *)
Lemma bindings_of_dict_set_other (d : dict) (k k0 : string) (v : float) :
  k <> k0 -> bindings_of (dict_set d k v) k0 = bindings_of d k0.
Proof.
  intros Hne. induction d as [|[k' v'] d IH]; simpl.
  - apply String.eqb_neq in Hne. now rewrite Hne.
  - destruct (String.eqb k' k) eqn:E; simpl.
    + apply String.eqb_eq in E. subst k'. apply String.eqb_neq in Hne.
      now rewrite Hne.
    + now rewrite IH.
Qed.

Lemma dict_keys_dict_set (d : dict) (k : string) (v : float) :
  dict_keys (dict_set d k v)
  = if existsb (String.eqb k) (dict_keys d) then dict_keys d
    else (dict_keys d ++ [k])%list.
Proof.
  induction d as [|[k' v'] d IH]; simpl; [reflexivity|].
  rewrite (String.eqb_sym k k').
  destruct (String.eqb k' k) eqn:E; simpl; [reflexivity|].
  rewrite IH. now destruct (existsb (String.eqb k) (dict_keys d)).
Qed.

Lemma existsb_eqb_false (k : string) (l : list string) :
  existsb (String.eqb k) l = false -> ~ In k l.
Proof.
  intros H Hin.
  assert (existsb (String.eqb k) l = true) as Ht.
  { apply existsb_exists. exists k. split; [assumption | apply String.eqb_refl]. }
  congruence.
Qed.

(** Keys stay pairwise distinct. *)
Lemma dict_set_NoDup (d : dict) (k : string) (v : float) :
  NoDup (dict_keys d) -> NoDup (dict_keys (dict_set d k v)).
Proof.
  intros Hnd. rewrite dict_keys_dict_set.
  destruct (existsb (String.eqb k) (dict_keys d)) eqn:E; [assumption|].
  apply NoDup_app.
  - assumption.
  - constructor; [intros [] | constructor].
  - intros x Hx [Hk|[]]. subst x. now apply (existsb_eqb_false k (dict_keys d)).
Qed.

(** A binding of the new dict is an old one or the one just written. *)
Lemma In_dict_set (d : dict) (k k0 : string) (v v0 : float) :
  In (k0, v0) (dict_set d k v) -> In (k0, v0) d \/ (k0 = k /\ v0 = v).
Proof.
  induction d as [|[k' v'] d IH]; simpl.
  - intros [H|[]]. inversion H. now right.
  - destruct (String.eqb k' k) eqn:E; simpl.
    + apply String.eqb_eq in E. subst k'.
      intros [H|H]; [inversion H; now right | left; now right].
    + intros [H|H]; [left; now left|].
      destruct (IH H) as [Hin|Heq]; [left; now right | now right].
Qed.

(** Writing a key that is absent appends the binding. *)
Lemma dict_set_absent (d : dict) (k : string) (v : float) :
  ~ In k (dict_keys d) -> dict_set d k v = (d ++ [(k, v)])%list.
Proof.
  induction d as [|[k' v'] d IH]; simpl; intros H; [reflexivity|].
  destruct (String.eqb k' k) eqn:E.
  - apply String.eqb_eq in E. tauto.
  - rewrite IH; tauto.
Qed.

Lemma dict_get_bindings_of (d : dict) (k : string) (v : float) :
  bindings_of d k = [(k, v)] -> dict_get d k = Some v.
Proof.
  induction d as [|[k' v'] d IH]; simpl; [discriminate|].
  destruct (String.eqb k' k) eqn:E.
  - intros H. now inversion H.
  - assumption.
Qed.

(** ** The composition loop as a fold *)

Lemma fold_set_entry_NoDup (entries : list WasteComposition) :
  forall d, NoDup (dict_keys d) -> NoDup (dict_keys (fold_left set_entry entries d)).
Proof.
  induction entries as [|e entries IH]; simpl; intros d Hnd; [assumption|].
  apply IH. now apply dict_set_NoDup.
Qed.

Lemma fold_set_entry_other (entries : list WasteComposition) (k : string) :
  (forall e, In e entries -> composition_name e <> k) ->
  forall d, bindings_of (fold_left set_entry entries d) k = bindings_of d k.
Proof.
  induction entries as [|e entries IH]; simpl; intros Hne d; [reflexivity|].
  rewrite IH by (intros e' He'; apply Hne; now right).
  apply bindings_of_dict_set_other. apply Hne. now left.
Qed.

(** Last write wins: the binding of a name is the percentage of the last
    entry that carries the name. *)
Lemma composition_mapping_last (before after : list WasteComposition) (e : WasteComposition) :
  (forall e', In e' after -> composition_name e' <> composition_name e) ->
  bindings_of (composition_mapping (before ++ e :: after)) (composition_name e)
  = [(composition_name e, composition_percentage e)].
Proof.
  intros Hlast. unfold composition_mapping.
  rewrite fold_left_app. simpl.
  rewrite fold_set_entry_other by assumption.
  apply bindings_of_dict_set. apply fold_set_entry_NoDup. constructor.
Qed.

(** Every binding of the fold is an initial one or comes from an entry,
    with its percentage unchanged. *)
Lemma fold_set_entry_In (entries : list WasteComposition) (k : string) (v : float) :
  forall d,
    In (k, v) (fold_left set_entry entries d) ->
    In (k, v) d
    \/ exists e, In e entries /\ composition_name e = k /\ composition_percentage e = v.
Proof.
  induction entries as [|e entries IH]; simpl; intros d H; [now left|].
  destruct (IH _ H) as [Hin|[e' [He' Heq]]].
  - destruct (In_dict_set _ _ _ _ _ Hin) as [Hd|[Hk Hv]]; [now left|].
    right. exists e. now repeat split; auto.
  - right. exists e'. split; [now right | assumption].
Qed.

Lemma composition_mapping_verbatim (entries : list WasteComposition) :
  Forall (fun kv => exists e, In e entries /\ composition_name e = fst kv
                              /\ composition_percentage e = snd kv)
    (composition_mapping entries).
Proof.
  apply Forall_forall. intros [k v] H.
  destruct (fold_set_entry_In entries k v [] H) as [[]|Hex]. exact Hex.
Qed.

(** When no name repeats, the mapping lists the entries in their order. *)
Lemma fold_set_entry_distinct (entries : list WasteComposition) :
  forall d,
    NoDup (dict_keys d ++ map composition_name entries) ->
    fold_left set_entry entries d
    = (d ++ map (fun e => (composition_name e, composition_percentage e)) entries)%list.
Proof.
  induction entries as [|e entries IH]; simpl; intros d Hnd.
  - now rewrite app_nil_r.
  - unfold set_entry at 2. rewrite dict_set_absent.
    + rewrite IH.
      * now rewrite <- app_assoc.
      * unfold dict_keys. rewrite map_app. simpl. now rewrite <- app_assoc.
    + apply NoDup_remove_2 in Hnd. intros Hin. apply Hnd.
      apply in_or_app. now left.
Qed.

Lemma composition_mapping_distinct_values (entries : list WasteComposition) :
  NoDup (map composition_name entries) ->
  dict_values (composition_mapping entries) = map composition_percentage entries.
Proof.
  intros Hnd. unfold composition_mapping.
  rewrite fold_set_entry_distinct by assumption.
  unfold dict_values. simpl. rewrite map_map. reflexivity.
Qed.

(** * The claims *)

Section Claims.

Variable client : Client.
Variable float_str : float -> string.
Variable validation_str : string -> list string -> string.

(** C1.  For every area string and every behaviour of the provider, a
    request to GET /waste-composition/{area} is answered, either with
    status 200 and a body that is a list of exactly one result, or with
    status 500 and a body carrying a [detail]; no exception other than the
    handler's own [HTTPException] leaves the handler, whether the pipeline
    returns or raises. *)
Theorem C1_endpoint_200_or_500 (area : string) (w : World) :
  exists resp,
    GET_waste_composition client float_str validation_str area w = Some resp
    /\ ((status resp = 200%Z
         /\ exists r, body resp = JsonContent (Results [r]))
        \/ (status resp = 500%Z
            /\ exists detail, body resp = JsonDetail detail)).
Proof.
  unfold GET_waste_composition. rewrite waste_composition_endpoint_eq.
  destruct (get_waste_composition client float_str validation_str area
              (add_record w INFO ("Received request for area: " ++ area)))
    as [[v|e] w1] eqn:Hrun.
  - destruct (get_waste_composition_returns _ _ _ _ _ _ _ Hrun)
      as (response & part & parsed & _ & _ & _ & Hv & _).
    subst v. eexists. split; [reflexivity|].
    left. split; [reflexivity|]. now eexists.
  - eexists. split; [reflexivity|].
    right. split; [reflexivity|]. now eexists.
Qed.

(** C2.  When a category name occurs in several extracted entries, the
    mapping built by the normalizer binds that name exactly once, to the
    percentage of the last entry with the name: with [e] that last entry
    (no entry after it has its name), the bindings of the name are the
    single pair (name, percentage of [e]), and looking the name up yields
    that percentage; the percentages of the earlier entries with the name
    are gone. *)
Theorem C2_last_write_wins
    (parsed : ParsedResponse) (area : string) (w : World)
    (before after : list WasteComposition) (e : WasteComposition) :
  composition_dict (output_parsed parsed) = (before ++ e :: after)%list ->
  (forall e', In e' after -> composition_name e' <> composition_name e) ->
  exists d w',
    collect_composition parsed area w = (Return d, w')
    /\ bindings_of d (composition_name e)
       = [(composition_name e, composition_percentage e)]
    /\ dict_get d (composition_name e) = Some (composition_percentage e)
    /\ NoDup (dict_keys d).
Proof.
  intros Hentries Hlast. rewrite collect_composition_eq, Hentries.
  do 2 eexists. split; [reflexivity|].
  pose proof (composition_mapping_last before after e Hlast) as Hb.
  split; [exact Hb|]. split.
  - now apply dict_get_bindings_of.
  - apply fold_set_entry_NoDup. constructor.
Qed.

(** C3.  The sum validation is observational: whatever the mapping and
    whether or not its sum deviates from 100.0 by more than 0.03, the
    pipeline's last step returns the one-element list holding the raw
    text, the citations and the mapping as they are; it makes no provider
    call and emits one log record, a WARNING when the sum deviates and an
    INFO otherwise. *)
Theorem C3_validation_is_observational
    (structured_result : string) (links : list string) (d : dict)
    (area : string) (w : World) :
  fst (validate_total float_str structured_result links d area w)
  = Return (Results [ {| ResponseData.output := structured_result;
                         ResponseData.citations := links;
                         ResponseData.composition := d |} ])
  /\ calls (snd (validate_total float_str structured_result links d area w)) = calls w
  /\ exists record,
       log (snd (validate_total float_str structured_result links d area w))
       = (log w ++ [record])%list
       /\ levelname record
          = if deviates (py_sum (dict_values d)) then WARNING else INFO.
Proof.
  rewrite validate_total_eq. unfold total_record. simpl fst. simpl snd.
  split; [reflexivity|].
  destruct (deviates (py_sum (dict_values d))); simpl.
  - split; [reflexivity|]. eexists. split; reflexivity.
  - split; [reflexivity|]. eexists. split; reflexivity.
Qed.

(** C4.  Whenever the [try] block of [get_waste_composition] raises, the
    [except] clause logs the error and then fails itself: building a
    [WasteCompositionResponse] from [citation_dict] and [message] alone
    raises a validation error for the missing [composition_dict].  So the
    failure leaves the function as that exception, and no run of the
    function, failing or not, returns an error object. *)
Theorem C4_except_branch_raises
    (area : string) (w w1 : World) (e : Exception) :
  pipeline_body client float_str area (started w area) = (Raise e, w1) ->
  (forall extra citations,
      WasteCompositionResponse_init None (Some citations) extra
      = Raise (ValidationError "WasteCompositionResponse" ["composition_dict"]))
  /\ get_waste_composition client float_str validation_str area w
     = (Raise (ValidationError "WasteCompositionResponse" ["composition_dict"]),
        add_record w1 ERROR
          ("Error processing area " ++ area ++ ": " ++ exception_str validation_str e))
  /\ (forall area' w' error_object,
        fst (get_waste_composition client float_str validation_str area' w')
        <> Return (ErrorObject error_object)).
Proof.
  intros Hbody. split; [reflexivity|]. split.
  - now apply get_waste_composition_raises.
  - intros area' w' error_object.
    rewrite get_waste_composition_eq, pipeline_body_eq.
    destruct (retrieval_answer client area' (started w' area')) as [response|e1];
      [|discriminate].
    destruct (message_part response) as [part|e2]; [|discriminate].
    destruct (extraction_answer client area' (started w' area') (text part))
      as [parsed|e3]; discriminate.
Qed.

(** C5 (amended).  The pipeline checks no sign: the values of the mapping
    are the extracted percentages.  When both provider calls answer and
    every extracted percentage is non-negative, the pipeline returns one
    result whose mapping has only non-negative values; and when moreover
    the extraction output is well formed (no name repeats and its
    percentages add up, left to right, to within 0.03 of 100.0), the
    values of the mapping add up to within 0.03 of 100.0. *)
Theorem C5_values_non_negative_when_extracted_so
    (area : string) (w : World)
    (response : Response) (part : ContentPart) (parsed : ParsedResponse) :
  retrieval_answer client area w = Return response ->
  message_part response = Return part ->
  extraction_answer client area w (text part) = Return parsed ->
  Forall (fun e => non_negative (composition_percentage e))
    (composition_dict (output_parsed parsed)) ->
  exists r w',
    get_waste_composition client float_str validation_str area w
    = (Return (Results [r]), w')
    /\ Forall non_negative (dict_values (ResponseData.composition r))
    /\ (well_formed (composition_dict (output_parsed parsed)) ->
        within_tolerance (py_sum (dict_values (ResponseData.composition r)))).
Proof.
  intros Hr Hp He Hpos.
  rewrite (get_waste_composition_succeeds _ _ _ _ _ _ _ _ Hr Hp He).
  do 2 eexists. split; [reflexivity|]. simpl. split.
  - unfold dict_values. apply Forall_map.
    pose proof (composition_mapping_verbatim (composition_dict (output_parsed parsed)))
      as Hverb.
    rewrite Forall_forall in *. intros kv Hkv.
    destruct (Hverb kv Hkv) as (e & Hin & _ & Hval).
    rewrite <- Hval. now apply Hpos.
  - intros (Hnd & _ & Hsum).
    now rewrite composition_mapping_distinct_values.
Qed.

(** C6.  When both provider calls answer, the citations of the pipeline's
    result are the URLs of the annotations of the retrieval answer, one
    per annotation and in the annotations' order: the list has the length
    of the annotation list, its i-th item is the URL of the i-th
    annotation, and a URL cited twice is kept twice. *)
Theorem C6_citations_follow_annotations
    (area : string) (w : World)
    (response : Response) (part : ContentPart) (parsed : ParsedResponse) :
  retrieval_answer client area w = Return response ->
  message_part response = Return part ->
  extraction_answer client area w (text part) = Return parsed ->
  exists r w',
    get_waste_composition client float_str validation_str area w
    = (Return (Results [r]), w')
    /\ ResponseData.citations r = map url (annotations part)
    /\ len (ResponseData.citations r) = len (annotations part)
    /\ (forall i, nth_error (ResponseData.citations r) i
                  = option_map url (nth_error (annotations part) i)).
Proof.
  intros Hr Hp He.
  rewrite (get_waste_composition_succeeds _ _ _ _ _ _ _ _ Hr Hp He).
  do 2 eexists. split; [reflexivity|]. simpl. split; [reflexivity|]. split.
  - unfold len. apply length_map.
  - intros i. apply nth_error_map.
Qed.

(** C7.  When the retrieval answer carries no annotation and the
    extraction answer an empty composition list, the pipeline returns the
    one-element list holding the raw text, no citation and the empty
    mapping; the sum is 0, which deviates from 100.0, and this is logged
    as a warning, the only record the pipeline adds after its opening one;
    the endpoint answers with status 200 and that list as body. *)
Theorem C7_invalid_area_still_200
    (area : string) (w : World)
    (response : Response) (part : ContentPart) (parsed : ParsedResponse) :
  retrieval_answer client area w = Return response ->
  message_part response = Return part ->
  annotations part = [] ->
  extraction_answer client area w (text part) = Return parsed ->
  composition_dict (output_parsed parsed) = [] ->
  let empty_result :=
    {| ResponseData.output := text part;
       ResponseData.citations := [];
       ResponseData.composition := [] |} in
  fst (get_waste_composition client float_str validation_str area w)
  = Return (Results [empty_result])
  /\ deviates (py_sum (dict_values [])) = true
  /\ log (snd (get_waste_composition client float_str validation_str area w))
     = (log w
        ++ [ {| levelname := INFO;
                message := "Processing waste composition request for area: " ++ area |};
             {| levelname := WARNING;
                message := "Total percentage 0% does not sum to 100% for area " ++ area |} ])%list
  /\ GET_waste_composition client float_str validation_str area w
     = Some {| status := 200; body := JsonContent (Results [empty_result]) |}.
Proof.
  intros Hr Hp Hann He Hcomp empty_result.
  assert (response_data_of part parsed = empty_result) as Hdata.
  { unfold response_data_of, empty_result. now rewrite Hann, Hcomp. }
  assert (deviates (py_sum (dict_values [])) = true) as Hdev by reflexivity.
  rewrite (get_waste_composition_succeeds _ _ _ _ _ _ _ _ Hr Hp He), Hdata.
  split; [reflexivity|]. split; [exact Hdev|]. split.
  - unfold success_world. rewrite Hann, Hcomp.
    change (composition_mapping []) with ([] : dict).
    unfold total_record. rewrite Hdev.
    unfold citations_record, composition_record. simpl.
    now rewrite <- app_assoc.
  - unfold GET_waste_composition. rewrite waste_composition_endpoint_eq.
    rewrite (get_waste_composition_succeeds client float_str validation_str area
               (add_record w INFO ("Received request for area: " ++ area))
               response part parsed Hr Hp He), Hdata.
    reflexivity.
Qed.

(** C8 (amended).  An error raised by the retrieval or by the extraction
    call is caught first by the [except] clause of the pipeline, which
    logs it; the failing call is not made again and nothing is called
    after it; the pipeline returns no result, partial or other, but
    raises; the top-level handler turns that into a status 500 response
    carrying a detail message. *)
Theorem C8_provider_error_logged_then_500
    (area : string) (w : World) (e : Exception) :
  retrieval_answer client area w = Raise e
  \/ (exists response part,
        retrieval_answer client area w = Return response
        /\ message_part response = Return part
        /\ extraction_answer client area w (text part) = Raise e) ->
  let run := get_waste_composition client float_str validation_str area w in
  (exists raised, fst run = Raise raised)
  /\ In {| levelname := ERROR;
           message := "Error processing area " ++ area ++ ": "
                      ++ exception_str validation_str e |} (log (snd run))
  /\ (retrieval_answer client area w = Raise e ->
      calls (snd run) = (calls w ++ [retrieval_call area])%list)
  /\ (forall response part,
        retrieval_answer client area w = Return response ->
        message_part response = Return part ->
        calls (snd run)
        = (calls w ++ [retrieval_call area; extraction_call (text part)])%list)
  /\ exists detail,
       GET_waste_composition client float_str validation_str area w
       = Some {| status := 500; body := JsonDetail detail |}.
Proof.
  intros Hfail run.
  assert (forall w0, calls w0 = calls w ->
            exists w1, pipeline_body client float_str area (started w0 area)
                       = (Raise e, w1)) as Hbody.
  { intros w0 Hcalls. rewrite pipeline_body_eq.
    unfold retrieval_answer, extraction_answer in *. simpl calls. rewrite Hcalls.
    destruct Hfail as [Hr|(response & part & Hr & Hp & He)].
    - rewrite Hr. now eexists.
    - rewrite Hr, Hp, He. now eexists. }
  split; [|split; [|split; [|split]]].
  - destruct (Hbody w eq_refl) as [w1 Hw1]. subst run.
    rewrite (get_waste_composition_raises _ _ _ _ _ _ _ Hw1). now eexists.
  - destruct (Hbody w eq_refl) as [w1 Hw1]. subst run.
    rewrite (get_waste_composition_raises _ _ _ _ _ _ _ Hw1). simpl.
    apply in_or_app. right. now left.
  - intros Hr. subst run. rewrite get_waste_composition_calls.
    unfold calls_made. now rewrite Hr.
  - intros response part Hr Hp. subst run. rewrite get_waste_composition_calls.
    unfold calls_made. now rewrite Hr, Hp.
  - destruct (Hbody (add_record w INFO ("Received request for area: " ++ area))
                eq_refl) as [w1 Hw1].
    unfold GET_waste_composition. rewrite waste_composition_endpoint_eq.
    rewrite (get_waste_composition_raises _ _ _ _ _ _ _ Hw1). now eexists.
Qed.

(** C9.  Every request to GET /health returns the payload
    {status: "healthy", version: "1.0.0"}, in every world, that is,
    whatever the provider did or would do; the handler makes no provider
    call and only emits one log record. *)
Theorem C9_health_is_fixed (w : World) :
  health_check w
  = (Return [("status", "healthy"); ("version", "1.0.0")],
     add_record w INFO "Health check requested")
  /\ calls (snd (health_check w)) = calls w.
Proof. split; reflexivity. Qed.

(** C10.  The normalizer always returns a mapping, and each binding of it
    is the name and the percentage of one extracted entry, the percentage
    being that entry's [composition_percentage] itself: no value is
    scaled, rounded or clamped. *)
Theorem C10_percentages_verbatim
    (parsed : ParsedResponse) (area : string) (w : World) :
  exists d w',
    collect_composition parsed area w = (Return d, w')
    /\ Forall (fun kv =>
                 exists e, In e (composition_dict (output_parsed parsed))
                           /\ composition_name e = fst kv
                           /\ composition_percentage e = snd kv) d.
Proof.
  rewrite collect_composition_eq. do 2 eexists. split; [reflexivity|].
  apply composition_mapping_verbatim.
Qed.

End Claims.

(** * The claims on sample providers *)

(** The sample extraction outputs: [balanced_entries] is well formed,
    [duplicated_entries] repeats a name and [negative_entries] holds a
    negative percentage. *)
Example balanced_entries_well_formed : well_formed balanced_entries.
Proof.
  unfold well_formed, balanced_entries. simpl. repeat split.
  - constructor.
    + intros [H|[]]. discriminate H.
    + constructor; [intros [] | constructor].
  - repeat constructor.
Qed.

Example duplicated_entries_collapse :
  composition_mapping duplicated_entries = [("glass", 25); ("food", 35)]%float.
Proof. reflexivity. Qed.

Example duplicated_entries_deviate :
  deviates (py_sum (dict_values (composition_mapping duplicated_entries))) = true.
Proof. reflexivity. Qed.

Example balanced_entries_do_not_deviate :
  deviates (py_sum (dict_values (composition_mapping balanced_entries))) = false.
Proof. reflexivity. Qed.

(** C2 on an extraction output that names glass twice. *)
Lemma C2_last_write_wins_witness :
  exists d w',
    collect_composition (sample_parsed duplicated_entries) "90210" empty_world
    = (Return d, w')
    /\ bindings_of d "glass" = [("glass", 25%float)]
    /\ dict_get d "glass" = Some 25%float
    /\ NoDup (dict_keys d).
Proof.
  exact (C2_last_write_wins (sample_parsed duplicated_entries) "90210" empty_world
           [entry "glass" 40; entry "food" 35] [] (entry "glass" 25)
           eq_refl (fun e' H => match H with end)).
Defined.

(** C4 on a provider that cannot be reached. *)
Lemma C4_except_branch_raises_witness :
  get_waste_composition unreachable_client sample_float_str sample_validation_str
    "90210" empty_world
  = (Raise (ValidationError "WasteCompositionResponse" ["composition_dict"]),
     add_record (add_call (started empty_world "90210") (retrieval_call "90210")) ERROR
       ("Error processing area 90210: Connection error.")).
Proof.
  exact (proj1 (proj2
           (C4_except_branch_raises unreachable_client sample_float_str
              sample_validation_str "90210" empty_world
              (add_call (started empty_world "90210") (retrieval_call "90210"))
              (ProviderError "Connection error.") eq_refl))).
Defined.

(** C5 (amended) on a well-formed extraction output. *)
Lemma C5_values_non_negative_witness :
  exists r w',
    get_waste_composition (answering_client sample_cited balanced_entries)
      sample_float_str sample_validation_str "90210" empty_world
    = (Return (Results [r]), w')
    /\ Forall non_negative (dict_values (ResponseData.composition r))
    /\ (well_formed balanced_entries ->
        within_tolerance (py_sum (dict_values (ResponseData.composition r)))).
Proof.
  apply (C5_values_non_negative_when_extracted_so
           (answering_client sample_cited balanced_entries)
           sample_float_str sample_validation_str "90210" empty_world
           (sample_response sample_cited)
           {| text := "Estimated composition of municipal solid waste.";
              annotations := map (fun u => {| url := u |}) sample_cited |}
           (sample_parsed balanced_entries)); try reflexivity.
  repeat constructor.
Defined.

(** C5 as stated fails: a negative extracted percentage reaches the
    result. *)
Lemma C5_counterexample_negative_value :
  ~ (forall (client : Client) (float_str : float -> string)
            (validation_str : string -> list string -> string)
            (area : string) (w w' : World) (r : ResponseData.t),
        get_waste_composition client float_str validation_str area w
        = (Return (Results [r]), w') ->
        Forall non_negative (dict_values (ResponseData.composition r))).
Proof.
  intros H.
  specialize (H (answering_client [] negative_entries) sample_float_str
                sample_validation_str "90210" empty_world _ _ eq_refl).
  simpl in H. inversion H as [|v vs Hneg Hrest]; subst.
  unfold non_negative in Hneg. vm_compute in Hneg. discriminate Hneg.
Qed.

(** C6 on a retrieval answer that cites one URL twice. *)
Lemma C6_citations_follow_annotations_witness :
  exists r w',
    get_waste_composition (answering_client sample_cited duplicated_entries)
      sample_float_str sample_validation_str "90210" empty_world
    = (Return (Results [r]), w')
    /\ ResponseData.citations r
       = ["https://example.org/a"; "https://example.org/b"; "https://example.org/a"]
    /\ len (ResponseData.citations r) = 3.
Proof.
  destruct (C6_citations_follow_annotations
              (answering_client sample_cited duplicated_entries)
              sample_float_str sample_validation_str "90210" empty_world
              (sample_response sample_cited)
              {| text := "Estimated composition of municipal solid waste.";
                 annotations := map (fun u => {| url := u |}) sample_cited |}
              (sample_parsed duplicated_entries) eq_refl eq_refl eq_refl)
    as (r & w' & Hrun & Hcit & Hlen & _).
  exists r, w'. split; [exact Hrun|]. split; [exact Hcit | exact Hlen].
Defined.

(** C7 on a provider that answers an invalid area with nothing. *)
Lemma C7_invalid_area_still_200_witness :
  GET_waste_composition (answering_client [] []) sample_float_str
    sample_validation_str "not-a-zip" empty_world
  = Some {| status := 200;
            body := JsonContent
                      (Results [ {| ResponseData.output :=
                                      "Estimated composition of municipal solid waste.";
                                    ResponseData.citations := [];
                                    ResponseData.composition := [] |} ]) |}.
Proof.
  exact (proj2 (proj2 (proj2
           (C7_invalid_area_still_200 (answering_client [] []) sample_float_str
              sample_validation_str "not-a-zip" empty_world
              (sample_response [])
              {| text := "Estimated composition of municipal solid waste.";
                 annotations := [] |}
              (sample_parsed []) eq_refl eq_refl eq_refl eq_refl eq_refl)))).
Defined.

(** C8 (amended) on a provider that cannot be reached. *)
Lemma C8_provider_error_logged_then_500_witness :
  exists detail,
    GET_waste_composition unreachable_client sample_float_str sample_validation_str
      "90210" empty_world
    = Some {| status := 500; body := JsonDetail detail |}.
Proof.
  exact (proj2 (proj2 (proj2 (proj2
           (C8_provider_error_logged_then_500 unreachable_client sample_float_str
              sample_validation_str "90210" empty_world
              (ProviderError "Connection error.") (or_introl eq_refl)))))).
Defined.

(** C8 as stated fails: the provider's error does not leave the pipeline;
    the [except] clause of the pipeline catches it, and the exception that
    reaches the top-level handler is another one. *)
Lemma C8_counterexample_error_caught_in_pipeline :
  ~ (forall (client : Client) (float_str : float -> string)
            (validation_str : string -> list string -> string)
            (area : string) (w : World) (e : Exception),
        retrieval_answer client area w = Raise e ->
        fst (get_waste_composition client float_str validation_str area w) = Raise e).
Proof.
  intros H.
  specialize (H unreachable_client sample_float_str sample_validation_str
                "90210" empty_world (ProviderError "Connection error.") eq_refl).
  vm_compute in H. discriminate H.
Qed.

(** The detail of the 500 response is the message of the validation error,
    not the provider's. *)
Example unreachable_provider_detail :
  GET_waste_composition unreachable_client sample_float_str sample_validation_str
    "90210" empty_world
  = Some {| status := 500;
            body := JsonDetail
                      ("Internal server error: "
                       ++ sample_validation_str "WasteCompositionResponse"
                            ["composition_dict"]) |}.
Proof. reflexivity. Qed.

(** A failing extraction call ends the same way, after one call of each
    kind. *)
Example unparsable_provider_calls :
  calls (snd (get_waste_composition unparsable_client sample_float_str
                sample_validation_str "90210" empty_world))
  = [retrieval_call "90210";
     extraction_call "Estimated composition of municipal solid waste."].
Proof. reflexivity. Qed.

(** * Further properties of the handlers *)

Section Requests.

Variable client : Client.
Variable float_str : float -> string.
Variable validation_str : string -> list string -> string.


(** The response to a request, from what the provider answers. *)
Lemma GET_waste_composition_eq (area : string) (w : World) :
  GET_waste_composition client float_str validation_str area w
  = match retrieval_answer client area w with
    | Raise _ => Some (failure_response validation_str)
    | Return response =>
        match message_part response with
        | Raise _ => Some (failure_response validation_str)
        | Return part =>
            match extraction_answer client area w (text part) with
            | Raise _ => Some (failure_response validation_str)
            | Return parsed =>
                Some {| status := 200;
                        body := JsonContent (Results [response_data_of part parsed]) |}
            end
        end
    end.
Proof.
  unfold GET_waste_composition.
  rewrite waste_composition_endpoint_eq, get_waste_composition_eq, pipeline_body_eq.
  change (retrieval_answer client area
            (started (add_record w INFO ("Received request for area: " ++ area)) area))
    with (retrieval_answer client area w).
  destruct (retrieval_answer client area w) as [response|e1]; [|reflexivity].
  destruct (message_part response) as [part|e2]; [|reflexivity].
  change (extraction_answer client area
            (started (add_record w INFO ("Received request for area: " ++ area)) area)
            (text part))
    with (extraction_answer client area w (text part)).
  destruct (extraction_answer client area w (text part)) as [parsed|e3]; reflexivity.
Qed.



(** X3.  When the retrieval answer has fewer than two output items, or
    its second item has no content part, reading [output[1].content[0]]
    raises an [IndexError]: the pipeline logs it, the extraction call is
    not made, and the request is answered with status 500. *)
Theorem short_retrieval_answer_fails
    (area : string) (w : World) (response : Response) :
  retrieval_answer client area w = Return response ->
  len (output response) < 2
  \/ (exists item, nth_error (output response) 1 = Some item /\ content item = []) ->
  let run := get_waste_composition client float_str validation_str area w in
  In {| levelname := ERROR;
        message := "Error processing area " ++ area ++ ": list index out of range" |}
     (log (snd run))
  /\ calls (snd run) = (calls w ++ [retrieval_call area])%list
  /\ GET_waste_composition client float_str validation_str area w
     = Some (failure_response validation_str).
Proof.
  intros Hr Hshort run.
  assert (message_part response = Raise (IndexError "list index out of range")) as Hp.
  { unfold message_part, index. destruct Hshort as [Hlen|(item & Hitem & Hcontent)].
    - assert (nth_error (output response) 1 = None) as Hnone
        by (apply nth_error_None; unfold len in Hlen; lia).
      now rewrite Hnone.
    - now rewrite Hitem, Hcontent. }
  split; [|split].
  - subst run. rewrite get_waste_composition_eq, pipeline_body_eq.
    change (retrieval_answer client area (started w area))
      with (retrieval_answer client area w).
    rewrite Hr, Hp. simpl. apply in_or_app. right. now left.
  - subst run. rewrite get_waste_composition_calls. unfold calls_made.
    now rewrite Hr, Hp.
  - rewrite GET_waste_composition_eq. now rewrite Hr, Hp.
Qed.

(** X4.  Whatever a request ends in, the handler calls the provider in
    this way: first the retrieval call, once, with model gpt-4o, the
    web-search tool and the prompt built from the area; then, only when
    the message part of the answer could be read, the extraction call,
    once, with model gpt-4o-mini and the fixed instruction followed by that
    part's text.  Nothing is called twice. *)
Theorem endpoint_provider_calls (area : string) (w : World) :
  calls (snd (waste_composition_endpoint client float_str validation_str area w))
  = (calls w
     ++ CreateCall "gpt-4o"
          [ {| tool_type := "web_search_preview"; search_context_size := "high" |} ]
          (retrieval_prompt area)
        :: match retrieval_answer client area w with
           | Raise _ => []
           | Return response =>
               match message_part response with
               | Raise _ => []
               | Return part =>
                   [ParseCall "gpt-4o-mini" (extraction_instruction ++ text part)]
               end
           end)%list.
Proof.
  rewrite waste_composition_endpoint_eq.
  pose proof (get_waste_composition_calls client float_str validation_str area
                (add_record w INFO ("Received request for area: " ++ area))) as Hcalls.
  assert (calls_made client area
            (add_record w INFO ("Received request for area: " ++ area))
          = retrieval_call area
            :: match retrieval_answer client area w with
               | Raise _ => []
               | Return response =>
                   match message_part response with
                   | Raise _ => []
                   | Return part => [extraction_call (text part)]
                   end
               end) as Hmade.
  { unfold calls_made.
    change (retrieval_answer client area
              (add_record w INFO ("Received request for area: " ++ area)))
      with (retrieval_answer client area w).
    destruct (retrieval_answer client area w) as [response|e1]; [|reflexivity].
    destruct (message_part response) as [part|e2]; reflexivity. }
  rewrite Hmade in Hcalls.
  destruct (get_waste_composition client float_str validation_str area
              (add_record w INFO ("Received request for area: " ++ area)))
    as [[v|e] w1]; exact Hcalls.
Qed.




End Requests.

(** * Further properties of the normalizer *)

Lemma In_dict_keys_dict_set (d : dict) (k k0 : string) (v : float) :
  In k0 (dict_keys (dict_set d k v)) <-> In k0 (dict_keys d) \/ k0 = k.
Proof.
  rewrite dict_keys_dict_set.
  destruct (existsb (String.eqb k) (dict_keys d)) eqn:E.
  - apply existsb_exists in E. destruct E as (x & Hx & Heq).
    apply String.eqb_eq in Heq. subst x.
    split; [now left | intros [H|H]; [assumption | now subst]].
  - rewrite in_app_iff. simpl. intuition (subst; auto).
Qed.

Lemma In_dict_keys_fold (entries : list WasteComposition) (k : string) :
  forall d,
    In k (dict_keys (fold_left set_entry entries d))
    <-> In k (dict_keys d) \/ In k (map composition_name entries).
Proof.
  induction entries as [|e entries IH]; simpl; intros d.
  - tauto.
  - rewrite IH. unfold set_entry at 1. rewrite In_dict_keys_dict_set.
    split; intros H; repeat destruct H as [H|H]; auto.
Qed.

Lemma dict_get_None (d : dict) (k : string) :
  dict_get d k = None <-> ~ In k (dict_keys d).
Proof.
  induction d as [|[k' v'] d IH]; simpl.
  - tauto.
  - destruct (String.eqb k' k) eqn:E.
    + apply String.eqb_eq in E. split; [discriminate | intros H; tauto].
    + apply String.eqb_neq in E. rewrite IH. tauto.
Qed.

Lemma dict_get_dict_set_other (d : dict) (k k0 : string) (v : float) :
  k <> k0 -> dict_get (dict_set d k v) k0 = dict_get d k0.
Proof.
  intros Hne. induction d as [|[k' v'] d IH]; simpl.
  - apply String.eqb_neq in Hne. now rewrite Hne.
  - destruct (String.eqb k' k) eqn:E; simpl.
    + apply String.eqb_eq in E. subst k'. apply String.eqb_neq in Hne.
      now rewrite Hne.
    + now rewrite IH.
Qed.

Lemma dict_get_fold_other (entries : list WasteComposition) (k : string) :
  ~ In k (map composition_name entries) ->
  forall d, dict_get (fold_left set_entry entries d) k = dict_get d k.
Proof.
  induction entries as [|e entries IH]; simpl; intros Hnot d; [reflexivity|].
  rewrite IH by tauto. apply dict_get_dict_set_other. tauto.
Qed.

Lemma dict_keys_fold_grows (entries : list WasteComposition) :
  forall d, exists more,
    dict_keys (fold_left set_entry entries d) = (dict_keys d ++ more)%list.
Proof.
  induction entries as [|e entries IH]; simpl; intros d.
  - exists []. now rewrite app_nil_r.
  - destruct (IH (set_entry d e)) as [more Hmore]. rewrite Hmore.
    unfold set_entry. rewrite dict_keys_dict_set.
    destruct (existsb _ _).
    + now exists more.
    + exists (composition_name e :: more). now rewrite <- app_assoc.
Qed.

(** X7.  The mapping has one key for each distinct category name of the
    extraction output and no other key: its keys are pairwise distinct, a
    name is a key if and only if some entry carries it, and looking up a
    name yields nothing if and only if no entry carries it. *)
Theorem mapping_keys_are_the_names
    (parsed : ParsedResponse) (area : string) (w : World) :
  exists d w',
    collect_composition parsed area w = (Return d, w')
    /\ NoDup (dict_keys d)
    /\ (forall k, In k (dict_keys d)
                  <-> In k (map composition_name (composition_dict (output_parsed parsed))))
    /\ (forall k, dict_get d k = None
                  <-> ~ In k (map composition_name (composition_dict (output_parsed parsed)))).
Proof.
  rewrite collect_composition_eq. do 2 eexists. split; [reflexivity|].
  assert (forall k, In k (dict_keys (composition_mapping
                                       (composition_dict (output_parsed parsed))))
                    <-> In k (map composition_name
                                (composition_dict (output_parsed parsed)))) as Hkeys.
  { intros k. unfold composition_mapping. rewrite In_dict_keys_fold. simpl. tauto. }
  split; [|split].
  - apply fold_set_entry_NoDup. constructor.
  - exact Hkeys.
  - intros k. rewrite dict_get_None. now rewrite Hkeys.
Qed.

(** X8.  The mapping never has more bindings than the extraction output
    has entries, and it has as many exactly when no category name
    repeats: each repetition of a name loses one entry. *)
Theorem mapping_size
    (parsed : ParsedResponse) (area : string) (w : World) :
  exists d w',
    collect_composition parsed area w = (Return d, w')
    /\ len d <= len (composition_dict (output_parsed parsed))
    /\ (len d = len (composition_dict (output_parsed parsed))
        <-> NoDup (map composition_name (composition_dict (output_parsed parsed)))).
Proof.
  rewrite collect_composition_eq. do 2 eexists. split; [reflexivity|].
  set (entries := composition_dict (output_parsed parsed)).
  assert (NoDup (dict_keys (composition_mapping entries))) as Hnd
    by (apply fold_set_entry_NoDup; constructor).
  assert (incl (dict_keys (composition_mapping entries)) (map composition_name entries))
    as Hincl.
  { intros k Hk. unfold composition_mapping in Hk. apply In_dict_keys_fold in Hk.
    destruct Hk as [[]|Hk]. exact Hk. }
  assert (len (composition_mapping entries)
          = List.length (dict_keys (composition_mapping entries))) as Hlen
    by (unfold len, dict_keys; now rewrite length_map).
  assert (len entries = List.length (map composition_name entries)) as Hlen'
    by (unfold len; now rewrite length_map).
  split; [|split].
  - rewrite Hlen, Hlen'. now apply NoDup_incl_length.
  - intros Heq. apply (@NoDup_incl_NoDup _ _ _ Hnd); [|exact Hincl].
    rewrite <- Hlen, <- Hlen', Heq. apply Nat.le_refl.
  - intros Hnames. unfold composition_mapping.
    rewrite fold_set_entry_distinct by assumption.
    unfold len. simpl. now rewrite length_map.
Qed.

(** X9.  The mapping lists the extracted entries themselves, pair by pair
    and in their order, if and only if no category name repeats. *)
Theorem mapping_is_lossless_iff_names_distinct
    (parsed : ParsedResponse) (area : string) (w : World) :
  fst (collect_composition parsed area w)
  = Return (map (fun e => (composition_name e, composition_percentage e))
              (composition_dict (output_parsed parsed)))
  <-> NoDup (map composition_name (composition_dict (output_parsed parsed))).
Proof.
  rewrite collect_composition_eq. simpl fst.
  set (entries := composition_dict (output_parsed parsed)). split.
  - intros H. inversion H as [Heq].
    assert (NoDup (dict_keys (composition_mapping entries))) as Hnd
      by (apply fold_set_entry_NoDup; constructor).
    rewrite Heq in Hnd. unfold dict_keys in Hnd. rewrite map_map in Hnd.
    exact Hnd.
  - intros Hnames. unfold composition_mapping.
    now rewrite fold_set_entry_distinct by assumption.
Qed.

(** X10.  Entries that follow in the extraction output never move or
    remove a key the mapping already has: the keys built from a prefix of
    the output are a prefix of the keys built from the whole output, and
    a key that no later entry names keeps its value. *)
Theorem mapping_keeps_insertion_order
    (parsed parsed' : ParsedResponse) (later : list WasteComposition)
    (area : string) (w : World) :
  composition_dict (output_parsed parsed')
  = (composition_dict (output_parsed parsed) ++ later)%list ->
  exists d d' more,
    fst (collect_composition parsed area w) = Return d
    /\ fst (collect_composition parsed' area w) = Return d'
    /\ dict_keys d' = (dict_keys d ++ more)%list
    /\ (forall k, ~ In k (map composition_name later) -> dict_get d' k = dict_get d k).
Proof.
  intros Hlater. rewrite !collect_composition_eq, Hlater. simpl fst.
  unfold composition_mapping. rewrite fold_left_app.
  destruct (dict_keys_fold_grows later
              (fold_left set_entry (composition_dict (output_parsed parsed)) []))
    as [more Hmore].
  do 2 eexists. exists more. split; [reflexivity|]. split; [reflexivity|].
  split; [exact Hmore|].
  intros k Hk. now apply dict_get_fold_other.
Qed.

(** ** A total that is not a number *)

Lemma add_nan_right (x : float) : (x + nan)%float = nan.
Proof.
  rewrite <- (SF2Prim_Prim2SF (x + nan)). rewrite add_spec.
  change (Prim2SF nan) with S754_nan.
  destruct (Prim2SF x); reflexivity.
Qed.

Lemma add_nan_left (x : float) : (nan + x)%float = nan.
Proof.
  rewrite <- (SF2Prim_Prim2SF (nan + x)). rewrite add_spec.
  change (Prim2SF nan) with S754_nan. reflexivity.
Qed.

Lemma sum_from_nan (values : list float) :
  fold_left number_add values (PyFloat nan) = PyFloat nan.
Proof.
  induction values as [|v values IH]; simpl; [reflexivity|].
  unfold number_add at 2. simpl to_float. now rewrite add_nan_left.
Qed.

Lemma sum_with_nan (values : list float) :
  In nan values -> forall acc, fold_left number_add values acc = PyFloat nan.
Proof.
  induction values as [|v values IH]; simpl; intros Hin acc; [contradiction|].
  destruct Hin as [Hv|Hin].
  - subst v. unfold number_add at 2. rewrite add_nan_right. apply sum_from_nan.
  - now apply IH.
Qed.

(** X11.  A mapping that holds a NaN passes the validation in silence:
    its total is NaN, the comparison with the tolerance is false, and the
    result is returned with the record of success and no warning. *)
Theorem nan_total_is_not_reported
    (float_str : float -> string) (structured_result : string)
    (links : list string) (d : dict) (area : string) (w : World) :
  In nan (dict_values d) ->
  py_sum (dict_values d) = PyFloat nan
  /\ validate_total float_str structured_result links d area w
     = (Return (Results [ {| ResponseData.output := structured_result;
                             ResponseData.citations := links;
                             ResponseData.composition := d |} ]),
        add_record w INFO
          ("Successfully processed composition data for area " ++ area)).
Proof.
  intros Hnan.
  assert (py_sum (dict_values d) = PyFloat nan) as Hsum
    by (unfold py_sum; now apply sum_with_nan).
  split; [exact Hsum|].
  rewrite validate_total_eq. unfold total_record. rewrite Hsum. reflexivity.
Qed.

(** * Properties of the start-up code *)

Section StartupProperties.

Import Startup.

Variable environ : string -> option string.
Variable OpenAI : string -> Outcome Client.
Variable LangSmith : Type.
Variable LangSmithClient : Outcome LangSmith.

(** The first block, case by case. *)
Lemma init_openai_eq (log0 : list LogRecord) :
  init_openai environ OpenAI log0
  = match environ "OPENAI_API_KEY" with
    | None =>
        (Failed openai_key_not_found,
         (log0 ++ [ {| levelname := ERROR;
                       message := "OPENAI_API_KEY not found in environment variables" |} ])%list)
    | Some key =>
        match OpenAI key with
        | Started client => (Started client, (log0 ++ [openai_ready])%list)
        | Failed (KeyError _) =>
            (Failed openai_key_not_found,
             (log0 ++ [ {| levelname := ERROR;
                           message := "OPENAI_API_KEY not found in environment variables" |} ])%list)
        | Failed (OtherException msg) => (Failed (OtherException msg), log0)
        end
    end.
Proof.
  unfold init_openai, Startup.try_except, Startup.bind, environ_getitem, Startup.lift.
  destruct (environ "OPENAI_API_KEY") as [key|]; [|reflexivity].
  destruct (OpenAI key) as [client|[arg|msg]]; reflexivity.
Qed.

(** The second block, case by case. *)
Lemma init_langsmith_eq (log0 : list LogRecord) :
  init_langsmith environ LangSmithClient log0
  = let not_found :=
      (Failed langchain_key_not_found,
       (log0 ++ [ {| levelname := ERROR;
                     message := "LANGCHAIN_API_KEY not found or empty in environment variables" |} ])%list)
    in
    match environ "LANGCHAIN_API_KEY" with
    | None => not_found
    | Some key =>
        if is_empty key then not_found
        else
          match LangSmithClient with
          | Started langsmith_client =>
              (Started langsmith_client, (log0 ++ [langsmith_ready])%list)
          | Failed (KeyError _) => not_found
          | Failed (OtherException msg) =>
              (Failed (OtherException ("Failed to initialize LangSmith client: " ++ msg)),
               (log0 ++ [ {| levelname := ERROR;
                             message := "Failed to initialize LangSmith client: " ++ msg |} ])%list)
          end
    end.
Proof.
  unfold init_langsmith, Startup.try_except, Startup.bind, environ_getitem, Startup.lift.
  destruct (environ "LANGCHAIN_API_KEY") as [key|]; [|reflexivity].
  destruct (is_empty key); [reflexivity|].
  destruct LangSmithClient as [langsmith_client|[arg|msg]]; reflexivity.
Qed.

Lemma startup_eq (log0 : list LogRecord) :
  startup environ OpenAI LangSmithClient log0
  = match init_openai environ OpenAI log0 with
    | (Failed e, log1) => (Failed e, log1)
    | (Started client, log1) =>
        match init_langsmith environ LangSmithClient log1 with
        | (Failed e, log2) => (Failed e, log2)
        | (Started langsmith_client, log2) => (Started (client, langsmith_client), log2)
        end
    end.
Proof.
  unfold startup, Startup.bind.
  destruct (init_openai environ OpenAI log0) as [[client|e] log1]; [|reflexivity].
  destruct (init_langsmith environ LangSmithClient log1) as [[l|e] log2]; reflexivity.
Qed.

Lemma is_empty_iff (s : string) : is_empty s = true <-> s = EmptyString.
Proof. destruct s; simpl; split; intros H; congruence. Qed.

(** X12.  The module starts if and only if OPENAI_API_KEY is set, the
    OpenAI constructor returns a client for it, LANGCHAIN_API_KEY is set
    to a string that is not empty, and the LangSmith constructor returns a
    client; it then holds these two clients and has logged the two records
    of success, in this order.  An empty OPENAI_API_KEY is not refused. *)
Theorem startup_succeeds_iff
    (log0 : list LogRecord) (client : Client) (langsmith_client : LangSmith) :
  startup environ OpenAI LangSmithClient log0
  = (Started (client, langsmith_client), (log0 ++ [openai_ready; langsmith_ready])%list)
  <-> (exists openai_key langchain_key,
          environ "OPENAI_API_KEY" = Some openai_key
          /\ OpenAI openai_key = Started client
          /\ environ "LANGCHAIN_API_KEY" = Some langchain_key
          /\ langchain_key <> EmptyString
          /\ LangSmithClient = Started langsmith_client).
Proof.
  rewrite startup_eq, init_openai_eq. split.
  - destruct (environ "OPENAI_API_KEY") as [key1|]; [|discriminate].
    destruct (OpenAI key1) as [c|[arg|msg]] eqn:Hopen; try discriminate.
    rewrite init_langsmith_eq. cbv zeta.
    destruct (environ "LANGCHAIN_API_KEY") as [key2|]; [|discriminate].
    destruct (is_empty key2) eqn:Hempty; [discriminate|].
    destruct LangSmithClient as [l|[arg|msg]]; try discriminate.
    intros H. inversion H; subst.
    exists key1, key2. repeat split; try assumption.
    intros Hk. apply is_empty_iff in Hk. congruence.
  - intros (key1 & key2 & H1 & Hopen & H2 & Hne & Hls).
    rewrite H1, Hopen, init_langsmith_eq, H2, Hls. cbv zeta.
    destruct (is_empty key2) eqn:Hempty.
    + apply is_empty_iff in Hempty. contradiction.
    + now rewrite <- app_assoc.
Qed.

(** X13.  When OPENAI_API_KEY is not set, or when the OpenAI constructor
    raises a [KeyError] of its own, start-up logs one ERROR record and
    fails with the message that the key was not found; the LangSmith block
    is not run, so neither LANGCHAIN_API_KEY nor the LangSmith constructor
    has any influence. *)
Theorem startup_without_openai_key (log0 : list LogRecord) :
  environ "OPENAI_API_KEY" = None
  \/ (exists key arg, environ "OPENAI_API_KEY" = Some key
                      /\ OpenAI key = Failed (KeyError arg)) ->
  startup environ OpenAI LangSmithClient log0
  = (Failed (OtherException
               "OPENAI_API_KEY not found in environment variables. Ensure it is set in .env file."),
     (log0 ++ [ {| levelname := ERROR;
                   message := "OPENAI_API_KEY not found in environment variables" |} ])%list).
Proof.
  intros [Hnone|(key & arg & Hkey & Hfail)]; rewrite startup_eq, init_openai_eq.
  - now rewrite Hnone.
  - now rewrite Hkey, Hfail.
Qed.

(** X14.  Once the OpenAI client is built, a LANGCHAIN_API_KEY that is
    not set, one that is the empty string, and a [KeyError] raised inside
    the LangSmith constructor all end start-up in the same way: one ERROR
    record and the message that the key was not found or is empty. *)
Theorem startup_without_langchain_key
    (log0 : list LogRecord) (openai_key : string) (client : Client) :
  environ "OPENAI_API_KEY" = Some openai_key ->
  OpenAI openai_key = Started client ->
  environ "LANGCHAIN_API_KEY" = None
  \/ environ "LANGCHAIN_API_KEY" = Some EmptyString
  \/ (exists arg, LangSmithClient = Failed (KeyError arg)) ->
  startup environ OpenAI LangSmithClient log0
  = (Failed (OtherException
               "LANGCHAIN_API_KEY not found or empty. Ensure it is set in .env file."),
     (log0 ++ [ openai_ready;
                {| levelname := ERROR;
                   message := "LANGCHAIN_API_KEY not found or empty in environment variables" |} ])%list).
Proof.
  intros Hkey Hopen Hcases.
  rewrite startup_eq, init_openai_eq, Hkey, Hopen, init_langsmith_eq. cbv zeta.
  destruct Hcases as [Hnone|[Hempty|[arg Hfail]]].
  - rewrite Hnone. now rewrite <- app_assoc.
  - rewrite Hempty. simpl. now rewrite <- app_assoc.
  - rewrite Hfail.
    destruct (environ "LANGCHAIN_API_KEY") as [key|]; [destruct (is_empty key)|];
      now rewrite <- app_assoc.
Qed.

(** X15.  An exception of the OpenAI constructor that is not a
    [KeyError] leaves start-up as it is: it is neither caught nor logged,
    and the LangSmith block is not run. *)
Theorem startup_openai_constructor_fails
    (log0 : list LogRecord) (openai_key msg : string) :
  environ "OPENAI_API_KEY" = Some openai_key ->
  OpenAI openai_key = Failed (OtherException msg) ->
  startup environ OpenAI LangSmithClient log0 = (Failed (OtherException msg), log0).
Proof.
  intros Hkey Hfail. now rewrite startup_eq, init_openai_eq, Hkey, Hfail.
Qed.

(** X16.  An exception of the LangSmith constructor that is not a
    [KeyError] is caught, logged at level ERROR and raised again as a new
    exception whose message is the old one after the words
    "Failed to initialize LangSmith client: ". *)
Theorem startup_langsmith_constructor_fails
    (log0 : list LogRecord) (openai_key langchain_key msg : string) (client : Client) :
  environ "OPENAI_API_KEY" = Some openai_key ->
  OpenAI openai_key = Started client ->
  environ "LANGCHAIN_API_KEY" = Some langchain_key ->
  langchain_key <> EmptyString ->
  LangSmithClient = Failed (OtherException msg) ->
  startup environ OpenAI LangSmithClient log0
  = (Failed (OtherException ("Failed to initialize LangSmith client: " ++ msg)),
     (log0 ++ [ openai_ready;
                {| levelname := ERROR;
                   message := "Failed to initialize LangSmith client: " ++ msg |} ])%list).
Proof.
  intros Hkey Hopen Hkey2 Hne Hfail.
  rewrite startup_eq, init_openai_eq, Hkey, Hopen, init_langsmith_eq, Hkey2, Hfail.
  cbv zeta. destruct (is_empty langchain_key) eqn:Hempty.
  - apply is_empty_iff in Hempty. contradiction.
  - now rewrite <- app_assoc.
Qed.

(** X17.  No [KeyError] leaves start-up: every one is turned into an
    exception with a message; and start-up adds records to the log, one
    ERROR record at most, and removes none. *)
Theorem startup_never_raises_KeyError (log0 : list LogRecord) :
  (forall arg, fst (startup environ OpenAI LangSmithClient log0) <> Failed (KeyError arg))
  /\ exists added,
       snd (startup environ OpenAI LangSmithClient log0) = (log0 ++ added)%list
       /\ List.length (errors added) <= 1.
Proof.
  rewrite startup_eq, init_openai_eq.
  destruct (environ "OPENAI_API_KEY") as [key1|].
  2:{ split; [discriminate|]. eexists. split; [reflexivity | simpl; lia]. }
  destruct (OpenAI key1) as [c|[arg|msg]].
  2:{ split; [discriminate|]. eexists. split; [reflexivity | simpl; lia]. }
  2:{ split; [discriminate|]. exists []. split; [now rewrite app_nil_r | simpl; lia]. }
  rewrite init_langsmith_eq. cbv zeta.
  destruct (environ "LANGCHAIN_API_KEY") as [key2|].
  2:{ split; [discriminate|]. eexists. rewrite <- app_assoc.
      split; [reflexivity | simpl; lia]. }
  destruct (is_empty key2).
  { split; [discriminate|]. eexists. rewrite <- app_assoc.
    split; [reflexivity | simpl; lia]. }
  destruct LangSmithClient as [l|[arg|msg]];
    (split; [discriminate|]; eexists; rewrite <- app_assoc;
     split; [reflexivity | simpl; lia]).
Qed.

End StartupProperties.

(** * The further properties on sample inputs *)

(** X3 on a retrieval answer without output items. *)
Lemma short_retrieval_answer_fails_witness :
  calls (snd (get_waste_composition (shaped_client []) sample_float_str
                sample_validation_str "90210" empty_world))
  = [retrieval_call "90210"]
  /\ GET_waste_composition (shaped_client []) sample_float_str sample_validation_str
       "90210" empty_world
     = Some (failure_response sample_validation_str).
Proof.
  apply (short_retrieval_answer_fails (shaped_client []) sample_float_str
           sample_validation_str "90210" empty_world {| output := [] |}).
  - reflexivity.
  - left. simpl. lia.
Defined.


(** X10 on an extraction output to which a second entry for glass is
    appended. *)
Lemma mapping_keeps_insertion_order_witness :
  exists d d' more,
    fst (collect_composition (sample_parsed [entry "glass" 40; entry "food" 35])
           "90210" empty_world) = Return d
    /\ fst (collect_composition (sample_parsed duplicated_entries)
              "90210" empty_world) = Return d'
    /\ dict_keys d' = (dict_keys d ++ more)%list
    /\ (forall k, ~ In k (map composition_name [entry "glass" 25]) ->
                  dict_get d' k = dict_get d k).
Proof.
  exact (mapping_keeps_insertion_order
           (sample_parsed [entry "glass" 40; entry "food" 35])
           (sample_parsed duplicated_entries) [entry "glass" 25]
           "90210" empty_world eq_refl).
Defined.

(** X11 on a mapping whose only value is NaN. *)
Lemma nan_total_is_not_reported_witness :
  py_sum (dict_values [("glass", nan)]) = PyFloat nan
  /\ validate_total sample_float_str "raw" [] [("glass", nan)] "90210" empty_world
     = (Return (Results [ {| ResponseData.output := "raw";
                             ResponseData.citations := [];
                             ResponseData.composition := [("glass", nan)] |} ]),
        add_record empty_world INFO
          "Successfully processed composition data for area 90210").
Proof.
  exact (nan_total_is_not_reported sample_float_str "raw" [] [("glass", nan)]
           "90210" empty_world (or_introl eq_refl)).
Defined.

(** X13 on an empty environment. *)
Lemma startup_without_openai_key_witness :
  Startup.startup (Startup.environ_of []) Startup.sample_OpenAI
    (Startup.Started tt) []
  = (Startup.Failed Startup.openai_key_not_found,
     [ {| levelname := ERROR;
          message := "OPENAI_API_KEY not found in environment variables" |} ]).
Proof.
  exact (startup_without_openai_key (Startup.environ_of []) Startup.sample_OpenAI
           unit (Startup.Started tt) [] (or_introl eq_refl)).
Defined.

(** X14 on an environment whose LANGCHAIN_API_KEY is the empty string. *)
Lemma startup_without_langchain_key_witness :
  Startup.startup
    (Startup.environ_of [("OPENAI_API_KEY", "sk-test"); ("LANGCHAIN_API_KEY", EmptyString)])
    Startup.sample_OpenAI (Startup.Started tt) []
  = (Startup.Failed Startup.langchain_key_not_found,
     [ Startup.openai_ready;
       {| levelname := ERROR;
          message := "LANGCHAIN_API_KEY not found or empty in environment variables" |} ]).
Proof.
  exact (startup_without_langchain_key
           (Startup.environ_of
              [("OPENAI_API_KEY", "sk-test"); ("LANGCHAIN_API_KEY", EmptyString)])
           Startup.sample_OpenAI unit (Startup.Started tt) [] "sk-test"
           (answering_client [] []) eq_refl eq_refl (or_intror (or_introl eq_refl))).
Defined.

(** X15 on an OpenAI constructor that refuses the key. *)
Lemma startup_openai_constructor_fails_witness :
  Startup.startup Startup.full_environ
    (fun _ => Startup.Failed (Startup.OtherException "Invalid API key"))
    (Startup.Started tt) []
  = (Startup.Failed (Startup.OtherException "Invalid API key"), []).
Proof.
  exact (startup_openai_constructor_fails Startup.full_environ
           (fun _ => Startup.Failed (Startup.OtherException "Invalid API key"))
           unit (Startup.Started tt) [] "sk-test" "Invalid API key" eq_refl eq_refl).
Defined.

(** X16 on a LangSmith constructor that cannot reach its service. *)
Lemma startup_langsmith_constructor_fails_witness :
  Startup.startup Startup.full_environ Startup.sample_OpenAI
    (@Startup.Failed unit (Startup.OtherException "Connection error.")) []
  = (Startup.Failed
       (Startup.OtherException "Failed to initialize LangSmith client: Connection error."),
     [ Startup.openai_ready;
       {| levelname := ERROR;
          message := "Failed to initialize LangSmith client: Connection error." |} ]).
Proof.
  apply (startup_langsmith_constructor_fails Startup.full_environ Startup.sample_OpenAI
           unit (Startup.Failed (Startup.OtherException "Connection error.")) []
           "sk-test" "ls-test" "Connection error." (answering_client [] []));
    try reflexivity.
  discriminate.
Defined.

(** Start-up in a full environment. *)
Example startup_in_full_environ :
  Startup.startup Startup.full_environ Startup.sample_OpenAI (Startup.Started tt) []
  = (Startup.Started (answering_client [] [], tt),
     [Startup.openai_ready; Startup.langsmith_ready]).
Proof. reflexivity. Qed.
